(** * stem.control: the BaseController façade over a control socket

    A shallow embedding of [stem/control.py].  The file defines one class,
    [BaseController], whose methods forward to a socket object of the module
    [stem.socket].  That module is not part of the sources, so everything it
    does (building a transport, the socket's own methods, the attributes its
    classes declare) is a parameter of the development: the class [Foreign].

    Python objects live in a store indexed by references; attribute
    assignment updates the store in place, so two names for one socket see
    each other's writes. *)

From stdpp Require Import gmap strings list fin_maps.

Open Scope string_scope.
Open Scope Z_scope.

(** ** Object model *)

Definition loc := positive.

(** The classes that occur in [stem/control.py], plus a tag for any other. *)
Inductive pyclass :=
| stem_control_BaseController
| stem_socket_ControlSocket
| stem_socket_ControlPort
| stem_socket_ControlSocketFile
| py_function
| py_class (name : string).

Inductive value :=
| VNone
| VBool (b : bool)
| VInt (n : Z)
| VStr (s : string)
| VRef (l : loc)                          (* a reference to an object of the store *)
| VMethod (self : loc) (name : string).   (* a class attribute read through an instance *)

(** Code of the function objects that [stem/control.py] creates at run time.
    There is one: the closure of line 71, [def provide_self(): return self],
    which captures the variable [self] of [__init__]. *)
Inductive closure :=
| provide_self (self : loc).

Record object := Object {
  obj_class : pyclass;
  obj_dict : gmap string value;     (* the instance dictionary *)
  obj_code : option closure         (* set for function objects *)
}.

Record exn := Exn { exn_type : string; exn_arg : string }.

Definition AttributeError (name : string) : exn := Exn "AttributeError" name.
Definition TypeError (msg : string) : exn := Exn "TypeError" msg.
Definition SystemError (msg : string) : exn := Exn "SystemError" msg.

Inductive outcome (A : Type) :=
| Returns (a : A)
| Raises (e : exn).
Arguments Returns {A} a.
Arguments Raises {A} e.

#[global] Instance pyclass_eq_dec : EqDecision pyclass.
Proof. solve_decision. Defined.
#[global] Instance value_eq_dec : EqDecision value.
Proof. solve_decision. Defined.
#[global] Instance closure_eq_dec : EqDecision closure.
Proof. solve_decision. Defined.
#[global] Instance exn_eq_dec : EqDecision exn.
Proof. solve_decision. Defined.

(** ** The world outside the file *)

(** What the code of this file asks of code it does not contain. *)
Inductive foreign_op :=
| CallMethod (target : value) (name : string) (args : list value)
| Construct (cls : pyclass) (args : list value).

#[global] Instance foreign_op_eq_dec : EqDecision foreign_op.
Proof. solve_decision. Defined.

(** [foreign] runs a foreign operation: it may read and update the object
    store and its own state [Ext] (the network, the tor process), and it
    returns a value or raises.  [class_attr cls self name] is the class-level
    attribute [name] that a foreign class [cls] provides to its instance
    [self], if any. *)
Class Foreign := {
  Ext : Type;
  foreign : foreign_op → gmap loc object → Ext →
            outcome value * gmap loc object * Ext;
  class_attr : pyclass → loc → string → option value
}.

(** Everything the code of this file does that can be observed. *)
Inductive event :=
| Alloc (l : loc) (cls : pyclass)
| SetAttr (l : loc) (name : string) (v : value)
| Call (op : foreign_op).

#[global] Instance event_eq_dec : EqDecision event.
Proof. solve_decision. Defined.

Record world `{Foreign} := World {
  heap : gmap loc object;
  ext : Ext;
  log : list event        (* oldest first *)
}.

(** ** A state and exception monad *)

Definition M `{Foreign} (A : Type) : Type := world → outcome A * world.

#[global] Instance M_ret `{Foreign} : MRet M :=
  λ A a w, (Returns a, w).

#[global] Instance M_bind `{Foreign} : MBind M :=
  λ A B f m w,
    match m w with
    | (Returns a, w') => f a w'
    | (Raises e, w') => (Raises e, w')
    end.

Section primitives.
Context `{Foreign}.

(** Instance creation: a new object of class [cls] with an empty
    dictionary, at a reference the store does not use. *)
Definition alloc (cls : pyclass) (code : option closure) : M loc :=
  λ w, let l := fresh (dom (heap w)) in
       (Returns l,
        World _ (<[l := Object cls ∅ code]> (heap w)) (ext w)
                (log w ++ [Alloc l cls])).

(** The names bound in the body of [class BaseController]. *)
Definition BaseController_namespace : list string :=
  ["from_port"; "from_socket_file"; "__init__"; "send"; "recv"; "is_alive";
   "connect"; "close"; "get_socket"; "add_status_listener";
   "remove_status_listener"; "_make_socket"].

(** Class-level lookup along the method resolution order:
    [BaseController], then its base [stem.socket.ControlSocket]. *)
Definition lookup_class (cls : pyclass) (self : loc) (name : string)
  : option value :=
  match cls with
  | stem_control_BaseController =>
      if bool_decide (name ∈ BaseController_namespace)
      then Some (VMethod self name)
      else class_attr stem_socket_ControlSocket self name
  | _ => class_attr cls self name
  end.

(** [self.name]: the instance dictionary, then the classes, then
    [AttributeError]. *)
Definition getattr (self : loc) (name : string) : M value :=
  λ w, match heap w !! self with
       | None => (Raises (SystemError "dangling reference"), w)
       | Some o =>
           match obj_dict o !! name with
           | Some v => (Returns v, w)
           | None =>
               match lookup_class (obj_class o) self name with
               | Some v => (Returns v, w)
               | None => (Raises (AttributeError name), w)
               end
           end
       end.

(** [target.name = v]: a write to the dictionary of the object [target]
    refers to; a value that is no object has no dictionary. *)
Definition setattr (target : value) (name : string) (v : value) : M unit :=
  λ w, match target with
       | VRef l =>
           match heap w !! l with
           | None => (Raises (SystemError "dangling reference"), w)
           | Some o =>
               (Returns (),
                World _ (<[l := Object (obj_class o)
                                       (<[name := v]> (obj_dict o))
                                       (obj_code o)]> (heap w))
                        (ext w)
                        (log w ++ [SetAttr l name v]))
           end
       | _ => (Raises (AttributeError name), w)
       end.

(** A foreign operation, recorded and then run. *)
Definition perform (op : foreign_op) : M value :=
  λ w, match foreign op (heap w) (ext w) with
       | (r, h, x) => (r, World _ h x (log w ++ [Call op]))
       end.

(** [target.name(args)] on an object of [stem.socket]. *)
Definition call_method (target : value) (name : string) (args : list value)
  : M value :=
  perform (CallMethod target name args).

(** [cls(args)] for a class of [stem.socket]. *)
Definition construct (cls : pyclass) (args : list value) : M value :=
  perform (Construct cls args).

(** [f(args)] for a function object this file created. *)
Definition call (f : value) (args : list value) : M value :=
  λ w, match f with
       | VRef l =>
           match heap w !! l with
           | Some (Object _ _ (Some (provide_self self))) =>
               match args with
               | [] => (Returns (VRef self), w)
               | _ => (Raises (TypeError "provide_self() takes no arguments"), w)
               end
           | _ => perform (CallMethod f "__call__" args) w
           end
       | _ => perform (CallMethod f "__call__" args) w
       end.
End primitives.

(** ** class BaseController(stem.socket.ControlSocket) *)

Module BaseController.
Section methods.
Context `{Foreign}.

(** Lines 68-72. *)
Definition __init__ (self : loc) (control_socket : value) : M value :=
  setattr (VRef self) "_socket" control_socket;;
  f ← alloc py_function (Some (provide_self self));
  s ← getattr self "_socket";
  setattr s "_get_self" (VRef f);;
  mret VNone.

(** The call [BaseController(control_socket)]: a new instance, initialised
    by [__init__]. *)
Definition new (control_socket : value) : M value :=
  self ← alloc stem_control_BaseController None;
  __init__ self control_socket;;
  mret (VRef self).

(** Lines 30-46.  An argument left out is [None] here and takes the
    default of the signature. *)
Definition from_port (control_addr control_port : option value) : M value :=
  let control_addr := default (VStr "127.0.0.1") control_addr in
  let control_port := default (VInt 9051) control_port in
  control_port ← construct stem_socket_ControlPort [control_addr; control_port];
  new control_port.

(** Lines 48-63. *)
Definition from_socket_file (socket_path : option value) : M value :=
  let socket_path := default (VStr "/var/run/tor/control") socket_path in
  control_socket ← construct stem_socket_ControlSocketFile [socket_path];
  new control_socket.

(** Lines 74-75. *)
Definition send (self : loc) (message : value) (raw : option value) : M value :=
  let raw := default (VBool false) raw in
  s ← getattr self "_socket";
  call_method s "send" [message; raw];;
  mret VNone.

(** Lines 77-78. *)
Definition recv (self : loc) : M value :=
  s ← getattr self "_socket";
  call_method s "recv" [].

(** Lines 80-81. *)
Definition is_alive (self : loc) : M value :=
  s ← getattr self "_socket";
  call_method s "is_alive" [].

(** Lines 83-84. *)
Definition connect (self : loc) : M value :=
  s ← getattr self "_socket";
  call_method s "connect" [];;
  mret VNone.

(** Lines 86-87. *)
Definition close (self : loc) : M value :=
  s ← getattr self "_socket";
  call_method s "close" [];;
  mret VNone.

(** Lines 89-90. *)
Definition get_socket (self : loc) : M value :=
  getattr self "_socket".

(** Lines 92-93. *)
Definition add_status_listener (self : loc) (callback : value)
    (spawn : option value) : M value :=
  let spawn := default (VBool true) spawn in
  s ← getattr self "_socket";
  call_method s "add_status_listener" [callback; spawn];;
  mret VNone.

(** Lines 95-96. *)
Definition remove_status_listener (self : loc) (callback : value) : M value :=
  s ← getattr self "_socket";
  call_method s "remove_status_listener" [callback];;
  mret VNone.

(** Lines 98-99. *)
Definition _make_socket (self : loc) : M value :=
  s ← getattr self "_control_socket";
  call_method s "_make_socket" [];;
  mret VNone.
End methods.
End BaseController.

(** ** The public surface, as data *)

(** One call of a public method, with the arguments the caller supplied. *)
Inductive operation :=
| op_send (message : value) (raw : option value)
| op_recv
| op_is_alive
| op_connect
| op_close
| op_get_socket
| op_add_status_listener (callback : value) (spawn : option value)
| op_remove_status_listener (callback : value).

#[global] Instance operation_eq_dec : EqDecision operation.
Proof. solve_decision. Defined.

Definition invoke `{Foreign} (self : loc) (o : operation) : M value :=
  match o with
  | op_send message raw => BaseController.send self message raw
  | op_recv => BaseController.recv self
  | op_is_alive => BaseController.is_alive self
  | op_connect => BaseController.connect self
  | op_close => BaseController.close self
  | op_get_socket => BaseController.get_socket self
  | op_add_status_listener callback spawn =>
      BaseController.add_status_listener self callback spawn
  | op_remove_status_listener callback =>
      BaseController.remove_status_listener self callback
  end.

Definition op_name (o : operation) : string :=
  match o with
  | op_send _ _ => "send"
  | op_recv => "recv"
  | op_is_alive => "is_alive"
  | op_connect => "connect"
  | op_close => "close"
  | op_get_socket => "get_socket"
  | op_add_status_listener _ _ => "add_status_listener"
  | op_remove_status_listener _ => "remove_status_listener"
  end.

(** The arguments of a call as the signature binds them: an argument left
    out has the default of lines 74 and 92. *)
Definition op_args (o : operation) : list value :=
  match o with
  | op_send message raw => [message; default (VBool false) raw]
  | op_add_status_listener callback spawn =>
      [callback; default (VBool true) spawn]
  | op_remove_status_listener callback => [callback]
  | _ => []
  end.

(** ** Observations *)

(** The entry [name] of the instance dictionary of [l]. *)
Definition inst_attr `{Foreign} (w : world) (l : loc) (name : string)
  : option value :=
  o ← heap w !! l; obj_dict o !! name.

(** [m], run in [w], is the single foreign operation [op] and nothing else:
    the store and the outside state are as [op] left them, one entry is
    logged, and an exception of [op] is the exception of [m]. *)
Definition sole_call `{Foreign} (op : foreign_op) (m : M value) (w : world)
  : Prop :=
  match foreign op (heap w) (ext w), m w with
  | (r, h, x), (r', w') =>
      heap w' = h ∧ ext w' = x ∧ log w' = (log w ++ [Call op])%list ∧
      ∀ e, r' = Raises e ↔ r = Raises e
  end.

(** A call of [o] on controller [self] is a call of the operation of the
    same name, with the same arguments, on [s]. *)
Definition delegates `{Foreign} (self : loc) (s : value) (o : operation)
    (w : world) : Prop :=
  sole_call (CallMethod s (op_name o) (op_args o)) (invoke self o) w.

Definition is_set (l : loc) (name : string) (e : event) : bool :=
  match e with
  | SetAttr l' name' _ => bool_decide (l' = l) && bool_decide (name' = name)
  | _ => false
  end.

Definition is_foreign (e : event) : bool :=
  match e with
  | Call _ => true
  | _ => false
  end.

Definition is_write (e : event) : bool :=
  match e with
  | Call _ => false
  | _ => true
  end.

(** The controller object as [__init__] leaves it. *)
Definition controller_object (s : value) : object :=
  Object stem_control_BaseController {[ "_socket" := s ]} None.

(** The function object of line 71. *)
Definition accessor_object (self : loc) : object :=
  Object py_function ∅ (Some (provide_self self)).

Definition with_attr (o : object) (name : string) (v : value) : object :=
  Object (obj_class o) (<[name := v]> (obj_dict o)) (obj_code o).

(** The world after [BaseController(VRef s)], for a socket [s] whose object
    is [o]: the controller at [c], the accessor at [f]. *)
Definition constructed `{Foreign} (w : world) (s : loc) (o : object) (c f : loc)
  : world :=
  World _
    (<[s := with_attr o "_get_self" (VRef f)]>
       (<[f := accessor_object c]>
          (<[c := controller_object (VRef s)]> (heap w))))
    (ext w)
    (log w ++ [Alloc c stem_control_BaseController;
               SetAttr c "_socket" (VRef s);
               Alloc f py_function;
               SetAttr s "_get_self" (VRef f)]).

(** What a method without a [return] statement makes of the result of the
    call it forwards: a value is dropped, an exception passes. *)
Definition discard (r : outcome value) : outcome value :=
  match r with
  | Returns _ => Returns VNone
  | Raises e => Raises e
  end.

(** The world after the foreign operation [op] left store [h] and outside
    state [x]. *)
Definition after `{Foreign} (w : world) (op : foreign_op)
    (h : gmap loc object) (x : Ext) : world :=
  World _ h x (log w ++ [Call op]).

(** The Python expression [s._get_self()], as the socket layer evaluates it
    to find the controller that owns it. *)
Definition get_self `{Foreign} (s : loc) : M value :=
  f ← getattr s "_get_self"; call f [].

(** send, connect and close end without a [return] statement; recv and
    is_alive end in [return self._socket.<name>()]. *)
Definition drops_result (o : operation) : bool :=
  match o with
  | op_send _ _ | op_connect | op_close => true
  | _ => false
  end.

Definition passes_result (o : operation) : bool :=
  match o with
  | op_recv | op_is_alive => true
  | _ => false
  end.

(** ** Two instances of the outside world, for evaluation *)

(** A reachable endpoint.  Constructing a socket allocates it; a socket
    records what is sent, answers [recv] with a reply line and reports that
    it is alive.  A controller used as a socket answers [get_socket]. *)
Definition reachable_foreign (op : foreign_op) (h : gmap loc object)
    (sent : list value) : outcome value * gmap loc object * list value :=
  match op with
  | Construct cls _ =>
      let l := fresh (dom h) in
      (Returns (VRef l), <[l := Object cls ∅ None]> h, sent)
  | CallMethod (VRef t) name args =>
      match h !! t with
      | None => (Raises (SystemError "dangling reference"), h, sent)
      | Some o =>
          if bool_decide (obj_class o = stem_control_BaseController) then
            match obj_dict o !! "_socket" with
            | Some s =>
                if bool_decide (name = "get_socket") then (Returns s, h, sent)
                else (Raises (AttributeError name), h, sent)
            | None => (Raises (AttributeError "_socket"), h, sent)
            end
          else if bool_decide (name = "send") then
            (Returns (VInt (Z.of_nat (length sent) + 1)), h, (sent ++ args)%list)
          else if bool_decide (name = "recv") then
            (Returns (VStr "250 OK"), h, sent)
          else if bool_decide (name = "is_alive") then
            (Returns (VBool true), h, sent)
          else (Returns VNone, h, sent)
      end
  | CallMethod _ name _ => (Raises (AttributeError name), h, sent)
  end.

Definition socket_namespace : list string :=
  ["send"; "recv"; "is_alive"; "connect"; "close"; "add_status_listener";
   "remove_status_listener"; "_get_self"; "_make_socket"].

Definition socket_class_attr (cls : pyclass) (self : loc) (name : string)
  : option value :=
  if bool_decide (name ∈ socket_namespace) then Some (VMethod self name)
  else None.

Definition reachable : Foreign :=
  {| Ext := list value;
     foreign := reachable_foreign;
     class_attr := socket_class_attr |}.

(** An endpoint nobody listens on: building a transport raises. *)
Definition refused : exn := Exn "SocketError" "Connection refused".

Definition unreachable_foreign (op : foreign_op) (h : gmap loc object)
    (x : unit) : outcome value * gmap loc object * unit :=
  match op with
  | Construct _ _ => (Raises refused, h, x)
  | CallMethod _ name _ => (Raises (AttributeError name), h, x)
  end.

Definition unreachable : Foreign :=
  {| Ext := unit;
     foreign := unreachable_foreign;
     class_attr := socket_class_attr |}.

(** The empty world, and a world with one unconnected socket at reference 1. *)
Definition w_empty (F : Foreign) (x : @Ext F) : @world F :=
  @World F ∅ x [].

Definition w_socket : @world reachable :=
  @World reachable {[ 1%positive := Object stem_socket_ControlPort ∅ None ]} [] [].

(** Worlds for evaluation: a controller at 2 over the socket at 1, and a
    second controller at 4 over the controller at 2. *)
Definition w_controller : @world reachable :=
  snd (@BaseController.new reachable (VRef 1%positive) w_socket).

Definition w_nested : @world reachable :=
  snd (@BaseController.new reachable (VRef 2%positive) w_controller).

(** ** Callers: a sequence of calls on one controller *)

(** The statements [c.op1(...); c.op2(...); ...] run one after the other;
    an exception ends the run. *)
Fixpoint run_ops `{Foreign} (self : loc) (ops : list operation)
  : M (list value) :=
  match ops with
  | [] => mret []
  | o :: ops =>
      v ← invoke self o;
      vs ← run_ops self ops;
      mret (v :: vs)
  end.




(** A world in which the controller at 2 was also given, from outside, the
    attribute that [_make_socket] reads: it refers to a second socket, at 7. *)
Definition w_patched : @world reachable :=
  @World reachable
    (<[7%positive := Object stem_socket_ControlSocketFile ∅ None]>
       (<[2%positive := Object stem_control_BaseController
                          (<["_control_socket" := VRef 7%positive]>
                             {[ "_socket" := VRef 1%positive ]}) None]>
          (heap w_controller)))
    [] [].

(** A world with two unconnected sockets, at 1 and at 2. *)
Definition w_two_sockets : @world reachable :=
  @World reachable
    (<[2%positive := Object stem_socket_ControlSocketFile ∅ None]>
       {[ 1%positive := Object stem_socket_ControlPort ∅ None ]})
    [] [].

(** ** Basic facts about the primitives *)

Section facts.
Context `{Foreign}.

Lemma getattr_dict (w : world) (self : loc) (name : string) (v : value) :
  inst_attr w self name = Some v → getattr self name w = (Returns v, w).
Proof.
  unfold inst_attr, getattr. intros Hattr.
  destruct (heap w !! self) as [o|]; simpl in Hattr; [|done].
  by rewrite Hattr.
Qed.

Lemma fresh_heap (h : gmap loc object) : h !! fresh (dom h) = None.
Proof. apply not_elem_of_dom, is_fresh. Qed.

Lemma fresh_ne (h : gmap loc object) (l : loc) (o : object) :
  h !! l = Some o → l ≠ fresh (dom h).
Proof. intros Hl ->. by rewrite fresh_heap in Hl. Qed.

End facts.

(** ** Construction *)

Section construction.
Context `{Foreign}.

Lemma new_spec (w : world) (s : loc) (o : object) :
  heap w !! s = Some o →
  let c := fresh (dom (heap w)) in
  let f := fresh (dom (<[c := Object stem_control_BaseController ∅ None]> (heap w))) in
  c ≠ s ∧ f ≠ s ∧ f ≠ c ∧ heap w !! c = None ∧ heap w !! f = None ∧
  BaseController.new (VRef s) w = (Returns (VRef c), constructed w s o c f).
Proof.
  intros Hs c f.
  assert (Hc : heap w !! c = None) by apply fresh_heap.
  assert (Hf : <[c := Object stem_control_BaseController ∅ None]> (heap w) !! f = None)
    by apply fresh_heap.
  assert (Hfc : f ≠ c).
  { intros E. rewrite E, lookup_insert_eq in Hf. done. }
  rewrite lookup_insert_ne in Hf by done.
  assert (Hcs : c ≠ s) by (intros E; rewrite E, Hs in Hc; done).
  assert (Hfs : f ≠ s) by (intros E; rewrite E, Hs in Hf; done).
  repeat split; try done.
  unfold BaseController.new, BaseController.__init__, constructed.
  unfold mbind, M_bind, mret, M_ret, alloc, setattr, getattr; simpl.
  fold c. rewrite lookup_insert_eq. simpl.
  rewrite insert_insert_eq.
  replace (fresh (dom (<[c:=Object stem_control_BaseController (<["_socket":=VRef s]> ∅) None]> (heap w)))) with f.
  2:{ unfold f. by rewrite !dom_insert_L. }
  clearbody f. clearbody c.
  rewrite (lookup_insert_ne _ f c) by done. rewrite lookup_insert_eq. simpl.
  rewrite lookup_insert_eq. simpl.
  rewrite (lookup_insert_ne _ f s) by done.
  rewrite (lookup_insert_ne _ c s) by done.
  rewrite Hs. simpl.
  unfold controller_object, accessor_object, with_attr.
  rewrite <- !(assoc_L (++)). simpl.
  rewrite insert_empty. reflexivity.
Qed.

End construction.

(** ** Forwarding *)

Section forwarding.
Context `{Foreign}.

Lemma forward_discard (w : world) (self : loc) (s : value) (name : string)
    (args : list value) :
  inst_attr w self "_socket" = Some s →
  (s' ← getattr self "_socket"; call_method s' name args;; mret VNone) w =
  match foreign (CallMethod s name args) (heap w) (ext w) with
  | (r, h, x) => (discard r, after w (CallMethod s name args) h x)
  end.
Proof.
  intros Hs. unfold mbind, M_bind, mret, M_ret.
  rewrite (getattr_dict _ _ _ _ Hs).
  unfold call_method, perform, after.
  destruct (foreign _ _ _) as [[[v|e] h] x]; reflexivity.
Qed.

Lemma forward_return (w : world) (self : loc) (s : value) (name : string)
    (args : list value) :
  inst_attr w self "_socket" = Some s →
  (s' ← getattr self "_socket"; call_method s' name args) w =
  match foreign (CallMethod s name args) (heap w) (ext w) with
  | (r, h, x) => (r, after w (CallMethod s name args) h x)
  end.
Proof.
  intros Hs. unfold mbind, M_bind.
  rewrite (getattr_dict _ _ _ _ Hs).
  reflexivity.
Qed.

Lemma sole_call_discard (w : world) (self : loc) (s : value) (name : string)
    (args : list value) :
  inst_attr w self "_socket" = Some s →
  sole_call (CallMethod s name args)
    (s' ← getattr self "_socket"; call_method s' name args;; mret VNone) w.
Proof.
  intros Hs. unfold sole_call. rewrite (forward_discard _ _ _ _ _ Hs).
  destruct (foreign _ _ _) as [[r h] x]. simpl.
  repeat split; try done; destruct r; simpl; congruence.
Qed.

Lemma sole_call_return (w : world) (self : loc) (s : value) (name : string)
    (args : list value) :
  inst_attr w self "_socket" = Some s →
  sole_call (CallMethod s name args)
    (s' ← getattr self "_socket"; call_method s' name args) w.
Proof.
  intros Hs. unfold sole_call. rewrite (forward_return _ _ _ _ _ Hs).
  destruct (foreign _ _ _) as [[r h] x]. simpl.
  repeat split; done.
Qed.

Lemma get_socket_spec (w : world) (self : loc) (s : value) :
  inst_attr w self "_socket" = Some s →
  BaseController.get_socket self w = (Returns s, w).
Proof. apply getattr_dict. Qed.

Lemma forwarding_delegates (w : world) (self : loc) (s : value)
    (o : operation) :
  inst_attr w self "_socket" = Some s →
  o ≠ op_get_socket →
  delegates self s o w.
Proof.
  intros Hs Ho. unfold delegates.
  destruct o; simpl; try done;
    first [ by apply sole_call_discard | by apply sole_call_return ].
Qed.

Lemma constructed_socket (w : world) (s : loc) (o : object) (c f : loc) :
  c ≠ s → f ≠ c →
  heap (constructed w s o c f) !! c = Some (controller_object (VRef s)).
Proof.
  intros Hcs Hfc. unfold constructed. simpl.
  rewrite (lookup_insert_ne _ s c) by done.
  rewrite (lookup_insert_ne _ f c) by done.
  by rewrite lookup_insert_eq.
Qed.

Lemma controller_object_socket (w : world) (c : loc) (s : value) :
  heap w !! c = Some (controller_object s) →
  inst_attr w c "_socket" = Some s.
Proof.
  intros Hc. unfold inst_attr. rewrite Hc. simpl.
  by rewrite lookup_singleton_eq.
Qed.

End forwarding.

(** ** The back-reference *)

Section back_reference.
Context `{Foreign}.

Lemma constructed_get_self (w : world) (s : loc) (o : object) (c f : loc) :
  inst_attr (constructed w s o c f) s "_get_self" = Some (VRef f).
Proof.
  unfold inst_attr, constructed. simpl.
  rewrite lookup_insert_eq. simpl. by rewrite lookup_insert_eq.
Qed.

Lemma constructed_resolves (w : world) (s : loc) (o : object) (c f : loc) :
  f ≠ s →
  get_self s (constructed w s o c f)
    = (Returns (VRef c), constructed w s o c f).
Proof.
  intros Hfs. unfold get_self, mbind, M_bind.
  rewrite (getattr_dict _ _ _ _ (constructed_get_self w s o c f)).
  unfold call, constructed. simpl.
  rewrite (lookup_insert_ne _ s f) by done.
  by rewrite lookup_insert_eq.
Qed.

Lemma getattr_world (w : world) (self : loc) (name : string) :
  ∃ r, getattr self name w = (r, w).
Proof.
  unfold getattr.
  destruct (heap w !! self) as [o|]; [|by eexists].
  destruct (obj_dict o !! name); [by eexists|].
  destruct (lookup_class _ _ _); by eexists.
Qed.

Lemma forward_log_discard (w : world) (self : loc) (attr name : string)
    (args : list value) :
  ∃ es, log (snd ((s ← getattr self attr; call_method s name args;;
                   mret VNone) w))
        = (log w ++ es)%list ∧
        List.filter is_write es = [].
Proof.
  unfold mbind, M_bind.
  destruct (getattr_world w self attr) as [[s|e] ->].
  - unfold call_method, perform.
    destruct (foreign _ _ _) as [[[v|e] h] x];
      by exists [Call (CallMethod s name args)].
  - exists []. by rewrite app_nil_r.
Qed.

Lemma forward_log_return (w : world) (self : loc) (attr name : string)
    (args : list value) :
  ∃ es, log (snd ((s ← getattr self attr; call_method s name args) w))
        = (log w ++ es)%list ∧
        List.filter is_write es = [].
Proof.
  unfold mbind, M_bind.
  destruct (getattr_world w self attr) as [[s|e] ->].
  - unfold call_method, perform.
    destruct (foreign _ _ _) as [[r h] x].
    by exists [Call (CallMethod s name args)].
  - exists []. by rewrite app_nil_r.
Qed.

(** No method called on an existing controller allocates or assigns. *)
Lemma invoke_no_write (w : world) (self : loc) (op : operation) :
  ∃ es, log (snd (invoke self op w)) = (log w ++ es)%list ∧
        List.filter is_write es = [].
Proof.
  destruct op; simpl;
    try apply forward_log_discard; try apply forward_log_return.
  unfold BaseController.get_socket.
  destruct (getattr_world w self "_socket") as [r ->].
  exists []. by rewrite app_nil_r.
Qed.

Lemma make_socket_no_write (w : world) (self : loc) :
  ∃ es, log (snd (BaseController._make_socket self w)) = (log w ++ es)%list ∧
        List.filter is_write es = [].
Proof. apply forward_log_discard. Qed.

End back_reference.

(** ** The named constructors *)

Section named_constructors.
Context `{Foreign}.

(** Both named constructors are a foreign construction followed by
    [BaseController(...)] on its result. *)
Lemma construct_then_new (w : world) (op_cls : pyclass) (args : list value) :
  (v ← construct op_cls args; BaseController.new v) w =
  match foreign (Construct op_cls args) (heap w) (ext w) with
  | (Returns v, h, x) => BaseController.new v (after w (Construct op_cls args) h x)
  | (Raises e, h, x) => (Raises e, after w (Construct op_cls args) h x)
  end.
Proof.
  unfold mbind, M_bind, construct, perform, after.
  by destruct (foreign _ _ _) as [[[v|e] h] x].
Qed.

(** Constructing a controller logs allocations and assignments only. *)
Lemma new_log (w : world) (v : value) :
  ∃ es, log (snd (BaseController.new v w)) = (log w ++ es)%list ∧
        List.filter is_foreign es = [].
Proof.
  unfold BaseController.new, BaseController.__init__.
  unfold mbind, M_bind, mret, M_ret, alloc, setattr, getattr. simpl.
  rewrite lookup_insert_eq. simpl.
  set (c := fresh (dom (heap w))).
  set (f := fresh (dom _)).
  assert (Hfc : f ≠ c).
  { intros E. pose proof (fresh_heap (<[c:=Object stem_control_BaseController
      (<["_socket":=v]> ∅) None]> (<[c:=Object stem_control_BaseController ∅
      None]> (heap w)))) as Hf.
    fold f in Hf. rewrite E, lookup_insert_eq in Hf. done. }
  clearbody f. clearbody c.
  rewrite (lookup_insert_ne _ f c) by done.
  rewrite lookup_insert_eq. simpl. rewrite lookup_insert_eq.
  destruct v as [| | | |l|];
    try (eexists; rewrite <- !(assoc_L (++)); split; reflexivity).
  simpl. destruct (_ !! l);
    eexists; simpl; rewrite <- !(assoc_L (++)); split; reflexivity.
Qed.

Lemma named_constructor_log (w : world) (cls : pyclass) (args : list value) :
  ∃ es, log (snd ((v ← construct cls args; BaseController.new v) w))
        = (log w ++ Call (Construct cls args) :: es)%list ∧
        List.filter is_foreign es = [].
Proof.
  rewrite construct_then_new.
  destruct (foreign _ _ _) as [[[v|e] h] x].
  - destruct (new_log (after w (Construct cls args) h x) v) as (es & Hes & Hno).
    exists es. split; [|done].
    rewrite Hes. simpl. by rewrite <- (assoc_L (++)).
  - by exists [].
Qed.

Lemma named_constructor_spec (w : world) (cls : pyclass) (args : list value)
    (s : loc) (o : object) (h : gmap loc object) (x : Ext) :
  foreign (Construct cls args) (heap w) (ext w) = (Returns (VRef s), h, x) →
  h !! s = Some o →
  ∃ c f,
    c ≠ s ∧ f ≠ s ∧ f ≠ c ∧ h !! c = None ∧ h !! f = None ∧
    (v ← construct cls args; BaseController.new v) w
      = (Returns (VRef c),
         constructed (after w (Construct cls args) h x) s o c f).
Proof.
  intros Hcall Hs. rewrite construct_then_new, Hcall.
  destruct (new_spec (after w (Construct cls args) h x) s o Hs)
    as (Hcs & Hfs & Hfc & Hc & Hf & Hnew).
  eexists _, _.
  split; [exact Hcs|]. split; [exact Hfs|]. split; [exact Hfc|].
  split; [exact Hc|]. split; [exact Hf|]. exact Hnew.
Qed.

Lemma named_constructor_wraps (w : world) (cls : pyclass) (args : list value)
    (s : loc) (o : object) (h : gmap loc object) (x : Ext) :
  foreign (Construct cls args) (heap w) (ext w) = (Returns (VRef s), h, x) →
  h !! s = Some o →
  ∃ c w1 es,
    (v ← construct cls args; BaseController.new v) w = (Returns (VRef c), w1) ∧
    log w1 = (log w ++ Call (Construct cls args) :: es)%list ∧
    List.filter is_foreign es = [] ∧
    h !! c = None ∧
    heap w1 !! c = Some (controller_object (VRef s)) ∧
    BaseController.get_socket c w1 = (Returns (VRef s), w1).
Proof.
  intros Hcall Hs.
  destruct (named_constructor_spec w cls args s o h x Hcall Hs)
    as (c & f & Hcs & Hfs & Hfc & Hc & Hf & Hnew).
  exists c, (constructed (after w (Construct cls args) h x) s o c f).
  eexists. split; [exact Hnew|].
  split; [simpl; rewrite <- (assoc_L (++)); reflexivity|].
  split; [reflexivity|]. split; [exact Hc|].
  split; [by apply constructed_socket|].
  apply get_socket_spec, controller_object_socket. by apply constructed_socket.
Qed.

(** [_make_socket] on an instance of [BaseController] whose dictionary has
    no entry [_control_socket], when the base class has none either. *)
Lemma make_socket_spec (w : world) (self : loc) (o : object) :
  heap w !! self = Some o →
  obj_class o = stem_control_BaseController →
  obj_dict o !! "_control_socket" = None →
  class_attr stem_socket_ControlSocket self "_control_socket" = None →
  BaseController._make_socket self w
    = (Raises (AttributeError "_control_socket"), w).
Proof.
  intros Hself Hcls Hdict Hbase.
  unfold BaseController._make_socket, mbind, M_bind, getattr.
  rewrite Hself, Hdict, Hcls. simpl.
  by rewrite Hbase.
Qed.

Lemma constructed_make_socket (w : world) (s : loc) (o : object) (c f : loc) :
  c ≠ s → f ≠ c →
  class_attr stem_socket_ControlSocket c "_control_socket" = None →
  BaseController._make_socket c (constructed w s o c f)
    = (Raises (AttributeError "_control_socket"), constructed w s o c f).
Proof.
  intros Hcs Hfc Hbase.
  by apply (make_socket_spec _ _ (controller_object (VRef s)));
    [apply constructed_socket| | |].
Qed.

End named_constructors.

(** ** Runs on the two worlds *)

Example from_port_reachable :
  @BaseController.from_port reachable None None (w_empty reachable [])
  = (Returns (VRef 2%positive),
     @World reachable
       (<[1%positive := Object stem_socket_ControlPort
                          {[ "_get_self" := VRef 3%positive ]} None]>
          (<[3%positive := Object py_function ∅
                             (Some (provide_self 2%positive))]>
             {[ 2%positive := Object stem_control_BaseController
                                {[ "_socket" := VRef 1%positive ]} None ]}))
       []
       [Call (Construct stem_socket_ControlPort [VStr "127.0.0.1"; VInt 9051]);
        Alloc 2%positive stem_control_BaseController;
        SetAttr 2%positive "_socket" (VRef 1%positive);
        Alloc 3%positive py_function;
        SetAttr 1%positive "_get_self" (VRef 3%positive)]).
Proof. vm_compute; reflexivity. Qed.

Example from_socket_file_unreachable :
  @BaseController.from_socket_file unreachable (Some (VStr "/tmp/none"))
    (w_empty unreachable ())
  = (Raises refused,
     @World unreachable ∅ ()
       [Call (Construct stem_socket_ControlSocketFile [VStr "/tmp/none"])]).
Proof. vm_compute; reflexivity. Qed.

Example send_then_recv :
  let w1 := snd (@BaseController.send reachable 2%positive
                   (VStr "PROTOCOLINFO") (Some (VBool true)) w_controller) in
  ext w1 = [VStr "PROTOCOLINFO"; VBool true] ∧
  heap w1 = heap w_controller ∧
  log w1 = (log w_controller
            ++ [Call (CallMethod (VRef 1%positive) "send"
                        [VStr "PROTOCOLINFO"; VBool true])])%list ∧
  fst (@BaseController.recv reachable 2%positive w1) = Returns (VStr "250 OK").
Proof. vm_compute. repeat split; reflexivity. Qed.

Example add_status_listener_default :
  log (snd (@BaseController.add_status_listener reachable 2%positive
              (VRef 9%positive) None w_controller))
  = (log w_controller
     ++ [Call (CallMethod (VRef 1%positive) "add_status_listener"
                 [VRef 9%positive; VBool true])])%list.
Proof. vm_compute; reflexivity. Qed.

Example init_over_none :
  fst (@BaseController.new reachable VNone w_socket)
  = Raises (AttributeError "_get_self").
Proof. vm_compute; reflexivity. Qed.

Example make_socket_on_controller :
  @BaseController._make_socket reachable 2%positive w_controller
  = (Raises (AttributeError "_control_socket"), w_controller).
Proof. vm_compute; reflexivity. Qed.

(** ** C1 *)

(** C1, as stated, at [get_socket]: on the controller at 2 built over the
    socket at 1, [get_socket] is not a call of the socket's [get_socket];
    it logs no call at all. *)
Lemma get_socket_is_no_delegation :
  BaseController.new (VRef 1%positive) w_socket
    = (Returns (VRef 2%positive), w_controller) ∧
  BaseController.get_socket 2%positive w_controller
    = (Returns (VRef 1%positive), w_controller) ∧
  ¬ @delegates reachable 2%positive (VRef 1%positive) op_get_socket
      w_controller.
Proof.
  split; [vm_compute; reflexivity|].
  split; [vm_compute; reflexivity|].
  unfold delegates, sole_call. vm_compute.
  intros (_ & _ & Hlog & _).
  apply (f_equal length) in Hlog. discriminate Hlog.
Qed.

(** C1, amended: a controller built over a socket [s] has the reference to
    [s] as its whole state, and each of send, recv, is_alive, connect, close,
    add_status_listener and remove_status_listener is exactly one call of
    the operation of the same name on [s], with the arguments as the
    signature binds them; the store and the outside state are left as that
    call left them.  get_socket calls nothing on [s]: it returns [s] and
    leaves the world as it is. *)
Theorem public_operations_delegate `{Foreign} (w : world) (s : loc)
    (o : object) :
  heap w !! s = Some o →
  ∃ c w1,
    BaseController.new (VRef s) w = (Returns (VRef c), w1) ∧
    heap w1 !! c = Some (controller_object (VRef s)) ∧
    (∀ w' op, inst_attr w' c "_socket" = Some (VRef s) →
              op ≠ op_get_socket → delegates c (VRef s) op w') ∧
    (∀ w', inst_attr w' c "_socket" = Some (VRef s) →
           invoke c op_get_socket w' = (Returns (VRef s), w')).
Proof.
  intros Hs.
  destruct (new_spec w s o Hs) as (Hcs & Hfs & Hfc & _ & _ & Hnew).
  eexists _, _. split; [exact Hnew|].
  split; [by apply constructed_socket|].
  split.
  - intros w' op Hattr Hop. by apply forwarding_delegates.
  - intros w' Hattr. by apply get_socket_spec.
Qed.

Lemma public_operations_delegate_witness :
  heap w_socket !! 1%positive = Some (Object stem_socket_ControlPort ∅ None) ∧
  ∃ c w1,
    BaseController.new (VRef 1%positive) w_socket = (Returns (VRef c), w1) ∧
    heap w1 !! c = Some (controller_object (VRef 1%positive)) ∧
    (∀ w' op, inst_attr w' c "_socket" = Some (VRef 1%positive) →
              op ≠ op_get_socket →
              @delegates reachable c (VRef 1%positive) op w') ∧
    (∀ w', inst_attr w' c "_socket" = Some (VRef 1%positive) →
           @invoke reachable c op_get_socket w'
             = (Returns (VRef 1%positive), w')).
Proof.
  split; [reflexivity|].
  apply (@public_operations_delegate reachable w_socket 1%positive
           (Object stem_socket_ControlPort ∅ None)).
  reflexivity.
Defined.

(** ** C2 *)

(** C2: [from_port()] constructs [stem.socket.ControlPort("127.0.0.1", 9051)],
    that construction being its only foreign operation, and, when it yields
    a socket [s], returns a new [BaseController] whose [_socket] is [s]. *)
Theorem from_port_defaults `{Foreign} (w : world) (s : loc) (o : object)
    (h : gmap loc object) (x : Ext) :
  foreign (Construct stem_socket_ControlPort [VStr "127.0.0.1"; VInt 9051])
    (heap w) (ext w) = (Returns (VRef s), h, x) →
  h !! s = Some o →
  ∃ c w1 es,
    BaseController.from_port None None w = (Returns (VRef c), w1) ∧
    BaseController.from_port None None w
      = BaseController.from_port (Some (VStr "127.0.0.1")) (Some (VInt 9051)) w ∧
    log w1 = (log w ++ Call (Construct stem_socket_ControlPort
                               [VStr "127.0.0.1"; VInt 9051]) :: es)%list ∧
    List.filter is_foreign es = [] ∧
    h !! c = None ∧
    heap w1 !! c = Some (controller_object (VRef s)) ∧
    BaseController.get_socket c w1 = (Returns (VRef s), w1).
Proof.
  intros Hcall Hs.
  destruct (named_constructor_wraps w _ _ s o h x Hcall Hs)
    as (c & w1 & es & Hrun & Hlog & Hes & Hc & Hobj & Hget).
  exists c, w1, es. by repeat split.
Qed.

Lemma from_port_defaults_witness :
  @foreign reachable
     (Construct stem_socket_ControlPort [VStr "127.0.0.1"; VInt 9051])
     (heap (w_empty reachable [])) (ext (w_empty reachable []))
    = (Returns (VRef 1%positive),
       {[ 1%positive := Object stem_socket_ControlPort ∅ None ]}, []) ∧
  ∃ c w1 es,
    @BaseController.from_port reachable None None (w_empty reachable [])
      = (Returns (VRef c), w1) ∧
    @BaseController.from_port reachable None None (w_empty reachable [])
      = @BaseController.from_port reachable (Some (VStr "127.0.0.1"))
          (Some (VInt 9051)) (w_empty reachable []) ∧
    log w1 = (log (w_empty reachable [])
              ++ Call (Construct stem_socket_ControlPort
                         [VStr "127.0.0.1"; VInt 9051]) :: es)%list ∧
    List.filter is_foreign es = [] ∧
    ({[ 1%positive := Object stem_socket_ControlPort ∅ None ]}
       : gmap loc object) !! c = None ∧
    heap w1 !! c = Some (controller_object (VRef 1%positive)) ∧
    BaseController.get_socket c w1 = (Returns (VRef 1%positive), w1).
Proof.
  split; [vm_compute; reflexivity|].
  apply (@from_port_defaults reachable (w_empty reachable []) 1%positive
           (Object stem_socket_ControlPort ∅ None)
           {[ 1%positive := Object stem_socket_ControlPort ∅ None ]} []).
  - vm_compute; reflexivity.
  - reflexivity.
Defined.

(** ** C3 *)

(** C3: [from_socket_file()] constructs
    [stem.socket.ControlSocketFile("/var/run/tor/control")], that
    construction being its only foreign operation, and, when it yields a
    socket [s], returns a new [BaseController] whose [_socket] is [s]. *)
Theorem from_socket_file_default `{Foreign} (w : world) (s : loc) (o : object)
    (h : gmap loc object) (x : Ext) :
  foreign (Construct stem_socket_ControlSocketFile [VStr "/var/run/tor/control"])
    (heap w) (ext w) = (Returns (VRef s), h, x) →
  h !! s = Some o →
  ∃ c w1 es,
    BaseController.from_socket_file None w = (Returns (VRef c), w1) ∧
    BaseController.from_socket_file None w
      = BaseController.from_socket_file (Some (VStr "/var/run/tor/control")) w ∧
    log w1 = (log w ++ Call (Construct stem_socket_ControlSocketFile
                               [VStr "/var/run/tor/control"]) :: es)%list ∧
    List.filter is_foreign es = [] ∧
    h !! c = None ∧
    heap w1 !! c = Some (controller_object (VRef s)) ∧
    BaseController.get_socket c w1 = (Returns (VRef s), w1).
Proof.
  intros Hcall Hs.
  destruct (named_constructor_wraps w _ _ s o h x Hcall Hs)
    as (c & w1 & es & Hrun & Hlog & Hes & Hc & Hobj & Hget).
  exists c, w1, es. by repeat split.
Qed.

Lemma from_socket_file_default_witness :
  @foreign reachable
     (Construct stem_socket_ControlSocketFile [VStr "/var/run/tor/control"])
     (heap (w_empty reachable [])) (ext (w_empty reachable []))
    = (Returns (VRef 1%positive),
       {[ 1%positive := Object stem_socket_ControlSocketFile ∅ None ]}, []) ∧
  ∃ c w1 es,
    @BaseController.from_socket_file reachable None (w_empty reachable [])
      = (Returns (VRef c), w1) ∧
    @BaseController.from_socket_file reachable None (w_empty reachable [])
      = @BaseController.from_socket_file reachable
          (Some (VStr "/var/run/tor/control")) (w_empty reachable []) ∧
    log w1 = (log (w_empty reachable [])
              ++ Call (Construct stem_socket_ControlSocketFile
                         [VStr "/var/run/tor/control"]) :: es)%list ∧
    List.filter is_foreign es = [] ∧
    ({[ 1%positive := Object stem_socket_ControlSocketFile ∅ None ]}
       : gmap loc object) !! c = None ∧
    heap w1 !! c = Some (controller_object (VRef 1%positive)) ∧
    BaseController.get_socket c w1 = (Returns (VRef 1%positive), w1).
Proof.
  split; [vm_compute; reflexivity|].
  apply (@from_socket_file_default reachable (w_empty reachable []) 1%positive
           (Object stem_socket_ControlSocketFile ∅ None)
           {[ 1%positive := Object stem_socket_ControlSocketFile ∅ None ]} []).
  - vm_compute; reflexivity.
  - reflexivity.
Defined.

(** ** C4 *)

(** C4: when the construction of the transport raises, [from_port] and
    [from_socket_file] raise that same exception and leave the store as the
    failed construction left it: no controller is allocated.  Whatever the
    construction does, it is the only foreign operation of either
    constructor: no method of the socket is called. *)
Theorem named_constructors_propagate `{Foreign} (w : world)
    (control_addr control_port socket_path : option value) :
  (∀ e h x,
     foreign (Construct stem_socket_ControlPort
                [default (VStr "127.0.0.1") control_addr;
                 default (VInt 9051) control_port]) (heap w) (ext w)
       = (Raises e, h, x) →
     BaseController.from_port control_addr control_port w
       = (Raises e,
          after w (Construct stem_socket_ControlPort
                     [default (VStr "127.0.0.1") control_addr;
                      default (VInt 9051) control_port]) h x)) ∧
  (∀ e h x,
     foreign (Construct stem_socket_ControlSocketFile
                [default (VStr "/var/run/tor/control") socket_path])
       (heap w) (ext w) = (Raises e, h, x) →
     BaseController.from_socket_file socket_path w
       = (Raises e,
          after w (Construct stem_socket_ControlSocketFile
                     [default (VStr "/var/run/tor/control") socket_path]) h x)) ∧
  (∃ es, log (snd (BaseController.from_port control_addr control_port w))
           = (log w ++ Call (Construct stem_socket_ControlPort
                               [default (VStr "127.0.0.1") control_addr;
                                default (VInt 9051) control_port]) :: es)%list ∧
         List.filter is_foreign es = []) ∧
  (∃ es, log (snd (BaseController.from_socket_file socket_path w))
           = (log w ++ Call (Construct stem_socket_ControlSocketFile
                               [default (VStr "/var/run/tor/control")
                                  socket_path]) :: es)%list ∧
         List.filter is_foreign es = []).
Proof.
  split; [|split; [|split]].
  - intros e h x Hcall. unfold BaseController.from_port.
    by rewrite construct_then_new, Hcall.
  - intros e h x Hcall. unfold BaseController.from_socket_file.
    by rewrite construct_then_new, Hcall.
  - apply named_constructor_log.
  - apply named_constructor_log.
Qed.

Lemma named_constructors_propagate_witness :
  @BaseController.from_port unreachable None None (w_empty unreachable ())
    = (Raises refused,
       @World unreachable ∅ ()
         [Call (Construct stem_socket_ControlPort
                  [VStr "127.0.0.1"; VInt 9051])]) ∧
  @BaseController.from_socket_file unreachable None (w_empty unreachable ())
    = (Raises refused,
       @World unreachable ∅ ()
         [Call (Construct stem_socket_ControlSocketFile
                  [VStr "/var/run/tor/control"])]).
Proof.
  destruct (@named_constructors_propagate unreachable
              (w_empty unreachable ()) None None None)
    as (Hport & Hfile & _).
  split.
  - apply (Hport refused ∅ ()). reflexivity.
  - apply (Hfile refused ∅ ()). reflexivity.
Defined.

(** ** C5 *)

(** C5: constructing a controller [c] over a socket [s] leaves in
    [s._get_self] a function object, the closure of line 71, and calling it
    returns [c].  The construction assigns [s._get_self] once, and no method
    of an existing controller assigns anything. *)
Theorem accessor_returns_its_controller `{Foreign} (w : world) (s : loc)
    (o : object) :
  heap w !! s = Some o →
  ∃ c f w1 es,
    BaseController.new (VRef s) w = (Returns (VRef c), w1) ∧
    inst_attr w1 s "_get_self" = Some (VRef f) ∧
    heap w1 !! f = Some (accessor_object c) ∧
    get_self s w1 = (Returns (VRef c), w1) ∧
    log w1 = (log w ++ es)%list ∧
    length (List.filter (is_set s "_get_self") es) = 1%nat ∧
    (∀ w' op, ∃ es', log (snd (invoke c op w')) = (log w' ++ es')%list ∧
                     List.filter is_write es' = []) ∧
    (∀ w', ∃ es', log (snd (BaseController._make_socket c w'))
                    = (log w' ++ es')%list ∧
                  List.filter is_write es' = []).
Proof.
  intros Hs.
  destruct (new_spec w s o Hs) as (Hcs & Hfs & Hfc & _ & _ & Hnew).
  eexists _, _, _, _. split; [exact Hnew|].
  split; [apply constructed_get_self|].
  split.
  { unfold constructed. simpl.
    rewrite (lookup_insert_ne _ s) by done. by rewrite lookup_insert_eq. }
  split; [by apply constructed_resolves|].
  split; [reflexivity|].
  split.
  { simpl. rewrite (bool_decide_eq_false_2 _ Hcs).
    rewrite (bool_decide_eq_true_2 (s = s)) by done. reflexivity. }
  split.
  - intros w' op. apply invoke_no_write.
  - intros w'. apply make_socket_no_write.
Qed.

Lemma accessor_returns_its_controller_witness :
  heap w_socket !! 1%positive = Some (Object stem_socket_ControlPort ∅ None) ∧
  ∃ c f w1 es,
    BaseController.new (VRef 1%positive) w_socket = (Returns (VRef c), w1) ∧
    inst_attr w1 1%positive "_get_self" = Some (VRef f) ∧
    heap w1 !! f = Some (accessor_object c) ∧
    get_self 1%positive w1 = (Returns (VRef c), w1) ∧
    log w1 = (log w_socket ++ es)%list ∧
    length (List.filter (is_set 1%positive "_get_self") es) = 1%nat ∧
    (∀ w' op, ∃ es', log (snd (@invoke reachable c op w'))
                       = (log w' ++ es')%list ∧
                     List.filter is_write es' = []) ∧
    (∀ w', ∃ es', log (snd (@BaseController._make_socket reachable c w'))
                    = (log w' ++ es')%list ∧
                  List.filter is_write es' = []).
Proof.
  split; [reflexivity|].
  apply (@accessor_returns_its_controller reachable w_socket 1%positive
           (Object stem_socket_ControlPort ∅ None)).
  reflexivity.
Defined.

(** ** C6 *)

(** C6: on a controller built over [s], [get_socket] returns [s] and leaves
    the world, log included, as it was; and [s] is the target of the call
    that each forwarding method makes. *)
Theorem get_socket_returns_the_socket `{Foreign} (w : world) (s : loc)
    (o : object) :
  heap w !! s = Some o →
  ∃ c w1,
    BaseController.new (VRef s) w = (Returns (VRef c), w1) ∧
    BaseController.get_socket c w1 = (Returns (VRef s), w1) ∧
    ∀ w', inst_attr w' c "_socket" = Some (VRef s) →
      BaseController.get_socket c w' = (Returns (VRef s), w') ∧
      ∀ op, op ≠ op_get_socket →
        log (snd (invoke c op w'))
          = (log w' ++ [Call (CallMethod (VRef s) (op_name op) (op_args op))])%list.
Proof.
  intros Hs.
  destruct (new_spec w s o Hs) as (Hcs & Hfs & Hfc & _ & _ & Hnew).
  eexists _, _. split; [exact Hnew|].
  assert (Hown : inst_attr (constructed w s o (fresh (dom (heap w)))
            (fresh (dom (<[fresh (dom (heap w)) :=
               Object stem_control_BaseController ∅ None]> (heap w)))))
            (fresh (dom (heap w))) "_socket" = Some (VRef s)).
  { apply controller_object_socket. by apply constructed_socket. }
  split; [by apply get_socket_spec|].
  intros w' Hattr. split; [by apply get_socket_spec|].
  intros op Hop.
  pose proof (forwarding_delegates w' _ _ op Hattr Hop) as Hd.
  unfold delegates, sole_call in Hd.
  destruct (foreign _ _ _) as [[r h] x].
  destruct (invoke _ op w') as [r' w'']. simpl. tauto.
Qed.

Lemma get_socket_returns_the_socket_witness :
  heap w_socket !! 1%positive = Some (Object stem_socket_ControlPort ∅ None) ∧
  ∃ c w1,
    BaseController.new (VRef 1%positive) w_socket = (Returns (VRef c), w1) ∧
    BaseController.get_socket c w1 = (Returns (VRef 1%positive), w1) ∧
    ∀ w', inst_attr w' c "_socket" = Some (VRef 1%positive) →
      BaseController.get_socket c w' = (Returns (VRef 1%positive), w') ∧
      ∀ op, op ≠ op_get_socket →
        log (snd (@invoke reachable c op w'))
          = (log w' ++ [Call (CallMethod (VRef 1%positive) (op_name op)
                                (op_args op))])%list.
Proof.
  split; [reflexivity|].
  apply (@get_socket_returns_the_socket reachable w_socket 1%positive
           (Object stem_socket_ControlPort ∅ None)).
  reflexivity.
Defined.

(** ** C7 *)

(** C7: [send] takes an optional [raw] that defaults to [False].  On a
    controller that owns [s], [send(m)] is the socket's [send(m, False)], and
    [send(m, r)] is the socket's [send(m, r)]: that one call and nothing
    else, its value dropped, its exception passed on. *)
Theorem send_forwards_message_and_raw `{Foreign} (w : world) (self : loc)
    (s message : value) :
  inst_attr w self "_socket" = Some s →
  BaseController.send self message None w
    = BaseController.send self message (Some (VBool false)) w ∧
  BaseController.send self message None w
    = (let op := CallMethod s "send" [message; VBool false] in
       match foreign op (heap w) (ext w) with
       | (r, h, x) => (discard r, after w op h x)
       end) ∧
  ∀ raw, BaseController.send self message (Some raw) w
    = (let op := CallMethod s "send" [message; raw] in
       match foreign op (heap w) (ext w) with
       | (r, h, x) => (discard r, after w op h x)
       end).
Proof.
  intros Hs. split; [reflexivity|]. split.
  - by apply forward_discard.
  - intros raw. by apply forward_discard.
Qed.

Lemma send_forwards_message_and_raw_witness :
  @inst_attr reachable w_controller 2%positive "_socket"
    = Some (VRef 1%positive) ∧
  @BaseController.send reachable 2%positive (VStr "PROTOCOLINFO") None
     w_controller
    = @BaseController.send reachable 2%positive (VStr "PROTOCOLINFO")
        (Some (VBool false)) w_controller ∧
  @BaseController.send reachable 2%positive (VStr "PROTOCOLINFO") None
     w_controller
    = (let op := CallMethod (VRef 1%positive) "send"
                   [VStr "PROTOCOLINFO"; VBool false] in
       match @foreign reachable op (heap w_controller) (ext w_controller) with
       | (r, h, x) => (discard r, after w_controller op h x)
       end) ∧
  ∀ raw, @BaseController.send reachable 2%positive (VStr "PROTOCOLINFO")
           (Some raw) w_controller
    = (let op := CallMethod (VRef 1%positive) "send"
                   [VStr "PROTOCOLINFO"; raw] in
       match @foreign reachable op (heap w_controller) (ext w_controller) with
       | (r, h, x) => (discard r, after w_controller op h x)
       end).
Proof.
  split; [vm_compute; reflexivity|].
  apply (@send_forwards_message_and_raw reachable w_controller 2%positive
           (VRef 1%positive) (VStr "PROTOCOLINFO")).
  vm_compute; reflexivity.
Defined.

(** ** C8 *)

(** C8: [_make_socket] reads [self._control_socket].  The constructor
    stores the socket under [_socket], the class body binds no
    [_control_socket], and, given that the base class
    [stem.socket.ControlSocket] declares none either, the lookup fails: on a
    controller built by [BaseController(s)], [from_port] or
    [from_socket_file], [_make_socket] raises [AttributeError] and leaves
    the world, log included, as it was, so no method of the socket is
    called.  The same holds in any later world in which the controller's
    dictionary still has no such entry. *)
Theorem make_socket_always_raises `{Foreign} (w : world) :
  (∀ l, class_attr stem_socket_ControlSocket l "_control_socket" = None) →
  (∀ s o, heap w !! s = Some o →
     ∃ c w1,
       BaseController.new (VRef s) w = (Returns (VRef c), w1) ∧
       BaseController._make_socket c w1
         = (Raises (AttributeError "_control_socket"), w1)) ∧
  (∀ control_addr control_port s o h x,
     foreign (Construct stem_socket_ControlPort
                [default (VStr "127.0.0.1") control_addr;
                 default (VInt 9051) control_port]) (heap w) (ext w)
       = (Returns (VRef s), h, x) →
     h !! s = Some o →
     ∃ c w1,
       BaseController.from_port control_addr control_port w
         = (Returns (VRef c), w1) ∧
       BaseController._make_socket c w1
         = (Raises (AttributeError "_control_socket"), w1)) ∧
  (∀ socket_path s o h x,
     foreign (Construct stem_socket_ControlSocketFile
                [default (VStr "/var/run/tor/control") socket_path])
       (heap w) (ext w) = (Returns (VRef s), h, x) →
     h !! s = Some o →
     ∃ c w1,
       BaseController.from_socket_file socket_path w
         = (Returns (VRef c), w1) ∧
       BaseController._make_socket c w1
         = (Raises (AttributeError "_control_socket"), w1)) ∧
  (∀ w' c o,
     heap w' !! c = Some o →
     obj_class o = stem_control_BaseController →
     obj_dict o !! "_control_socket" = None →
     BaseController._make_socket c w'
       = (Raises (AttributeError "_control_socket"), w')).
Proof.
  intros Hbase. split; [|split; [|split]].
  - intros s o Hs.
    destruct (new_spec w s o Hs) as (Hcs & Hfs & Hfc & _ & _ & Hnew).
    eexists _, _. split; [exact Hnew|].
    by apply constructed_make_socket.
  - intros control_addr control_port s o h x Hcall Hs.
    destruct (named_constructor_spec w _ _ s o h x Hcall Hs)
      as (c & f & Hcs & Hfs & Hfc & _ & _ & Hnew).
    eexists _, _. split; [exact Hnew|].
    by apply constructed_make_socket.
  - intros socket_path s o h x Hcall Hs.
    destruct (named_constructor_spec w _ _ s o h x Hcall Hs)
      as (c & f & Hcs & Hfs & Hfc & _ & _ & Hnew).
    eexists _, _. split; [exact Hnew|].
    by apply constructed_make_socket.
  - intros w' c o Hc Hcls Hdict. by apply (make_socket_spec w' c o).
Qed.

Lemma make_socket_always_raises_witness :
  (∀ l, @class_attr reachable stem_socket_ControlSocket l "_control_socket"
        = None) ∧
  (∃ c w1,
     BaseController.new (VRef 1%positive) w_socket = (Returns (VRef c), w1) ∧
     BaseController._make_socket c w1
       = (Raises (AttributeError "_control_socket"), w1)) ∧
  (∃ c w1,
     @BaseController.from_port reachable None None (w_empty reachable [])
       = (Returns (VRef c), w1) ∧
     BaseController._make_socket c w1
       = (Raises (AttributeError "_control_socket"), w1)).
Proof.
  assert (Hbase : ∀ l, @class_attr reachable stem_socket_ControlSocket l
                         "_control_socket" = None) by (intros l; reflexivity).
  split; [exact Hbase|]. split.
  - destruct (@make_socket_always_raises reachable w_socket Hbase)
      as (Hnew & _).
    apply (Hnew 1%positive (Object stem_socket_ControlPort ∅ None)).
    reflexivity.
  - destruct (@make_socket_always_raises reachable (w_empty reachable [])
                Hbase) as (_ & Hport & _).
    apply (Hport None None 1%positive (Object stem_socket_ControlPort ∅ None)
             {[ 1%positive := Object stem_socket_ControlPort ∅ None ]} []).
    + vm_compute; reflexivity.
    + reflexivity.
Defined.

(** ** C9 *)

(** C9, as stated, at [get_socket]: the controller at 4 is built over the
    controller at 2, itself built over the socket at 1.  The operation
    [get_socket] of the owned object returns the socket at 1; [get_socket]
    on the controller at 4 returns the owned object, at 2. *)
Lemma get_socket_result_is_not_a_call_result :
  BaseController.new (VRef 2%positive) w_controller
    = (Returns (VRef 4%positive), w_nested) ∧
  BaseController.get_socket 2%positive w_nested
    = (Returns (VRef 1%positive), w_nested) ∧
  BaseController.get_socket 4%positive w_nested
    = (Returns (VRef 2%positive), w_nested) ∧
  ¬ (∀ v h x,
       @foreign reachable (CallMethod (VRef 2%positive) "get_socket" [])
         (heap w_nested) (ext w_nested) = (Returns v, h, x) →
       fst (@invoke reachable 4%positive op_get_socket w_nested) = Returns v).
Proof.
  split; [vm_compute; reflexivity|].
  split; [vm_compute; reflexivity|].
  split; [vm_compute; reflexivity|].
  intros Hclaim.
  specialize (Hclaim (VRef 1%positive) (heap w_nested) (ext w_nested)).
  assert (Hret : fst (@invoke reachable 4%positive op_get_socket w_nested)
                 = Returns (VRef 2%positive)) by (vm_compute; reflexivity).
  rewrite Hret in Hclaim.
  assert (Hne : Returns (VRef 2%positive) ≠ Returns (VRef 1%positive))
    by discriminate.
  apply Hne, Hclaim. vm_compute; reflexivity.
Qed.

(** C9, amended: on a controller that owns [s], send, connect and close
    return None whatever value the socket's method returns; recv and
    is_alive return exactly what the delegated call produced; get_socket
    makes no call and returns [s] itself. *)
Theorem results_of_public_operations `{Foreign} (w : world) (self : loc)
    (s : value) :
  inst_attr w self "_socket" = Some s →
  (∀ op v h x,
     drops_result op = true →
     foreign (CallMethod s (op_name op) (op_args op)) (heap w) (ext w)
       = (Returns v, h, x) →
     fst (invoke self op w) = Returns VNone) ∧
  (∀ op r h x,
     passes_result op = true →
     foreign (CallMethod s (op_name op) (op_args op)) (heap w) (ext w)
       = (r, h, x) →
     fst (invoke self op w) = r) ∧
  invoke self op_get_socket w = (Returns s, w).
Proof.
  intros Hs. split; [|split].
  - intros op v h x Hop Hcall.
    destruct op; try discriminate Hop; simpl in *;
      unfold BaseController.send, BaseController.connect, BaseController.close;
      rewrite (forward_discard _ _ _ _ _ Hs), Hcall; reflexivity.
  - intros op r h x Hop Hcall.
    destruct op; try discriminate Hop; simpl in *;
      unfold BaseController.recv, BaseController.is_alive;
      rewrite (forward_return _ _ _ _ _ Hs), Hcall; reflexivity.
  - by apply get_socket_spec.
Qed.

Lemma results_of_public_operations_witness :
  @inst_attr reachable w_controller 2%positive "_socket"
    = Some (VRef 1%positive) ∧
  fst (@invoke reachable 2%positive (op_send (VStr "GETINFO version") None)
         w_controller) = Returns VNone ∧
  fst (@invoke reachable 2%positive op_recv w_controller)
    = Returns (VStr "250 OK").
Proof.
  assert (Hown : @inst_attr reachable w_controller 2%positive "_socket"
                 = Some (VRef 1%positive)) by (vm_compute; reflexivity).
  destruct (@results_of_public_operations reachable w_controller 2%positive
              (VRef 1%positive) Hown) as (Hdrop & Hpass & _).
  split; [exact Hown|]. split.
  - apply (Hdrop (op_send (VStr "GETINFO version") None) (VInt 1)
             (heap w_controller) [VStr "GETINFO version"; VBool false]).
    + reflexivity.
    + vm_compute; reflexivity.
  - apply (Hpass op_recv (Returns (VStr "250 OK")) (heap w_controller) []).
    + reflexivity.
    + vm_compute; reflexivity.
Defined.

(** ** C10 *)

(** C10: the constructor assigns to its argument.  Two controllers built
    one after the other over the same socket [s] are distinct; after the
    first, [s._get_self()] is the first; after the second, [s._get_self] is
    another function object and [s._get_self()] is the second controller.
    The first controller's object, and so its [_socket], is as it was. *)
Theorem second_controller_takes_the_back_reference `{Foreign} (w : world)
    (s : loc) (o : object) :
  heap w !! s = Some o →
  ∃ c1 f1 w1 c2 f2 w2,
    BaseController.new (VRef s) w = (Returns (VRef c1), w1) ∧
    BaseController.new (VRef s) w1 = (Returns (VRef c2), w2) ∧
    c1 ≠ c2 ∧ f1 ≠ f2 ∧
    inst_attr w1 s "_get_self" = Some (VRef f1) ∧
    get_self s w1 = (Returns (VRef c1), w1) ∧
    inst_attr w2 s "_get_self" = Some (VRef f2) ∧
    get_self s w2 = (Returns (VRef c2), w2) ∧
    heap w2 !! c1 = heap w1 !! c1 ∧
    inst_attr w2 c1 "_socket" = Some (VRef s).
Proof.
  intros Hs.
  destruct (new_spec w s o Hs) as (Hcs & Hfs & Hfc & Hc & Hf & Hnew).
  set (c1 := fresh (dom (heap w))) in *.
  set (f1 := fresh (dom (<[c1 := Object stem_control_BaseController ∅ None]>
                           (heap w)))) in *.
  clearbody f1. clearbody c1.
  set (w1 := constructed w s o c1 f1) in *.
  assert (Hs1 : heap w1 !! s = Some (with_attr o "_get_self" (VRef f1))).
  { unfold w1, constructed. simpl. by rewrite lookup_insert_eq. }
  assert (Hc1 : heap w1 !! c1 = Some (controller_object (VRef s))).
  { by apply constructed_socket. }
  assert (Hf1 : heap w1 !! f1 = Some (accessor_object c1)).
  { unfold w1, constructed. simpl.
    rewrite (lookup_insert_ne _ s) by done. by rewrite lookup_insert_eq. }
  destruct (new_spec w1 s _ Hs1) as (Hcs2 & Hfs2 & Hfc2 & Hc2 & Hf2 & Hnew2).
  set (c2 := fresh (dom (heap w1))) in *.
  set (f2 := fresh (dom (<[c2 := Object stem_control_BaseController ∅ None]>
                           (heap w1)))) in *.
  clearbody f2. clearbody c2.
  assert (Hc12 : c1 ≠ c2) by (intros E; rewrite E, Hc2 in Hc1; done).
  assert (Hf12 : f1 ≠ f2) by (intros E; rewrite E, Hf2 in Hf1; done).
  assert (Hc1f2 : f2 ≠ c1) by (intros E; rewrite E, Hc1 in Hf2; done).
  assert (Hkeep : heap (constructed w1 s (with_attr o "_get_self" (VRef f1))
                          c2 f2) !! c1 = heap w1 !! c1).
  { unfold constructed at 1. simpl.
    rewrite (lookup_insert_ne _ s c1) by done.
    rewrite (lookup_insert_ne _ f2 c1) by done.
    by rewrite (lookup_insert_ne _ c2 c1). }
  exists c1, f1, w1, c2, f2,
    (constructed w1 s (with_attr o "_get_self" (VRef f1)) c2 f2).
  split; [exact Hnew|]. split; [exact Hnew2|].
  split; [done|]. split; [done|].
  split; [apply constructed_get_self|].
  split; [by apply constructed_resolves|].
  split; [apply constructed_get_self|].
  split; [by apply constructed_resolves|].
  split; [exact Hkeep|].
  apply controller_object_socket. by rewrite Hkeep.
Qed.

Lemma second_controller_takes_the_back_reference_witness :
  heap w_socket !! 1%positive = Some (Object stem_socket_ControlPort ∅ None) ∧
  ∃ c1 f1 w1 c2 f2 w2,
    BaseController.new (VRef 1%positive) w_socket = (Returns (VRef c1), w1) ∧
    BaseController.new (VRef 1%positive) w1 = (Returns (VRef c2), w2) ∧
    c1 ≠ c2 ∧ f1 ≠ f2 ∧
    inst_attr w1 1%positive "_get_self" = Some (VRef f1) ∧
    get_self 1%positive w1 = (Returns (VRef c1), w1) ∧
    inst_attr w2 1%positive "_get_self" = Some (VRef f2) ∧
    get_self 1%positive w2 = (Returns (VRef c2), w2) ∧
    heap w2 !! c1 = heap w1 !! c1 ∧
    inst_attr w2 c1 "_socket" = Some (VRef 1%positive).
Proof.
  split; [reflexivity|].
  apply (@second_controller_takes_the_back_reference reachable w_socket
           1%positive (Object stem_socket_ControlPort ∅ None)).
  reflexivity.
Defined.

(** * Further properties of the class *)

(** ** What construction touches *)

Section construction_frame.
Context `{Foreign}.

Lemma constructed_at_socket (w : world) (s : loc) (o : object) (c f : loc) :
  heap (constructed w s o c f) !! s
    = Some (with_attr o "_get_self" (VRef f)).
Proof. unfold constructed. simpl. by rewrite lookup_insert_eq. Qed.

Lemma constructed_elsewhere (w : world) (s : loc) (o : object) (c f l : loc) :
  l ≠ s → l ≠ c → l ≠ f →
  heap (constructed w s o c f) !! l = heap w !! l.
Proof.
  intros Hs Hc Hf. unfold constructed. simpl.
  rewrite (lookup_insert_ne _ s l) by done.
  rewrite (lookup_insert_ne _ f l) by done.
  by rewrite (lookup_insert_ne _ c l).
Qed.

Lemma constructed_dom (w : world) (s : loc) (o : object) (c f : loc) :
  heap w !! s = Some o →
  dom (heap (constructed w s o c f)) = {[c; f]} ∪ dom (heap w).
Proof.
  intros Hs. unfold constructed. simpl. rewrite !dom_insert_L.
  assert (Hin : s ∈ dom (heap w)) by (apply elem_of_dom; eauto).
  apply set_eq. intros l.
  rewrite !elem_of_union, !elem_of_singleton.
  split; [intros [->|[->|[->|Hl]]]|intros [[->| ->]|Hl]]; tauto.
Qed.

Lemma with_attr_other (o : object) (name name' : string) (v : value) :
  name' ≠ name →
  obj_dict (with_attr o name v) !! name' = obj_dict o !! name'.
Proof. intros Hne. unfold with_attr. simpl. by rewrite lookup_insert_ne. Qed.

(** [BaseController(v)] for a [v] that is no reference: the assignment of
    line 72 fails after the controller and the closure were allocated. *)
Lemma new_non_object (w : world) (v : value) :
  (∀ l, v ≠ VRef l) →
  let c := fresh (dom (heap w)) in
  let f := fresh (dom (<[c := Object stem_control_BaseController ∅ None]> (heap w))) in
  heap w !! c = None ∧ heap w !! f = None ∧
  BaseController.new v w
    = (Raises (AttributeError "_get_self"),
       World _ (<[f := accessor_object c]>
                  (<[c := controller_object v]> (heap w)))
               (ext w)
               (log w ++ [Alloc c stem_control_BaseController;
                          SetAttr c "_socket" v;
                          Alloc f py_function])).
Proof.
  intros Hv c f.
  assert (Hc : heap w !! c = None) by apply fresh_heap.
  assert (Hf : <[c := Object stem_control_BaseController ∅ None]> (heap w) !! f = None)
    by apply fresh_heap.
  assert (Hfc : f ≠ c).
  { intros E. rewrite E, lookup_insert_eq in Hf. done. }
  rewrite lookup_insert_ne in Hf by done.
  split; [done|]. split; [done|].
  unfold BaseController.new, BaseController.__init__.
  unfold mbind, M_bind, mret, M_ret, alloc, setattr, getattr; simpl.
  fold c. rewrite lookup_insert_eq. simpl.
  rewrite insert_insert_eq.
  replace (fresh (dom (<[c:=Object stem_control_BaseController (<["_socket":=v]> ∅) None]> (heap w)))) with f.
  2:{ unfold f. by rewrite !dom_insert_L. }
  clearbody f. clearbody c.
  rewrite (lookup_insert_ne _ f c) by done. rewrite lookup_insert_eq. simpl.
  rewrite lookup_insert_eq. simpl.
  unfold controller_object, accessor_object.
  rewrite <- !(assoc_L (++)). simpl. rewrite insert_empty.
  destruct v as [| | | |l|]; try reflexivity.
  by destruct (Hv l).
Qed.

End construction_frame.

(** X1: [BaseController(s)] adds two objects to the store, the controller
    and the closure, both at unused references.  Every object that existed,
    other than [s], is as it was; [s] keeps its class and every attribute but
    [_get_self]; nothing outside the store changes; and what is logged is two
    allocations and two assignments, [c._socket] then [s._get_self]. *)
Theorem construction_frame `{Foreign} (w : world) (s : loc) (o : object) :
  heap w !! s = Some o →
  ∃ c f w1 o1,
    BaseController.new (VRef s) w = (Returns (VRef c), w1) ∧
    heap w !! c = None ∧ heap w !! f = None ∧ c ≠ f ∧
    dom (heap w1) = {[c; f]} ∪ dom (heap w) ∧
    (∀ l o', l ≠ s → heap w !! l = Some o' → heap w1 !! l = Some o') ∧
    heap w1 !! s = Some o1 ∧
    obj_class o1 = obj_class o ∧ obj_code o1 = obj_code o ∧
    (∀ name, name ≠ "_get_self" → obj_dict o1 !! name = obj_dict o !! name) ∧
    ext w1 = ext w ∧
    log w1 = (log w ++ [Alloc c stem_control_BaseController;
                        SetAttr c "_socket" (VRef s);
                        Alloc f py_function;
                        SetAttr s "_get_self" (VRef f)])%list.
Proof.
  intros Hs.
  destruct (new_spec w s o Hs) as (Hcs & Hfs & Hfc & Hc & Hf & Hnew).
  eexists _, _, _, _. split; [exact Hnew|].
  split; [exact Hc|]. split; [exact Hf|]. split; [done|].
  split; [by apply constructed_dom|].
  split.
  { intros l o' Hl Hlo. rewrite constructed_elsewhere; [done|done| |].
    - intros E. rewrite E, Hc in Hlo. done.
    - intros E. rewrite E, Hf in Hlo. done. }
  split; [apply constructed_at_socket|].
  split; [reflexivity|]. split; [reflexivity|].
  split; [intros name Hname; by apply with_attr_other|].
  split; reflexivity.
Qed.

Lemma construction_frame_witness :
  heap w_socket !! 1%positive = Some (Object stem_socket_ControlPort ∅ None) ∧
  ∃ c f w1 o1,
    BaseController.new (VRef 1%positive) w_socket = (Returns (VRef c), w1) ∧
    heap w_socket !! c = None ∧ heap w_socket !! f = None ∧ c ≠ f ∧
    dom (heap w1) = {[c; f]} ∪ dom (heap w_socket) ∧
    (∀ l o', l ≠ 1%positive → heap w_socket !! l = Some o' →
             heap w1 !! l = Some o') ∧
    heap w1 !! 1%positive = Some o1 ∧
    obj_class o1 = stem_socket_ControlPort ∧ obj_code o1 = None ∧
    (∀ name, name ≠ "_get_self" →
             obj_dict o1 !! name = (∅ : gmap string value) !! name) ∧
    ext w1 = ext w_socket ∧
    log w1 = (log w_socket ++ [Alloc c stem_control_BaseController;
                               SetAttr c "_socket" (VRef 1%positive);
                               Alloc f py_function;
                               SetAttr 1%positive "_get_self" (VRef f)])%list.
Proof.
  split; [reflexivity|].
  apply (@construction_frame reachable w_socket 1%positive
           (Object stem_socket_ControlPort ∅ None)).
  reflexivity.
Defined.

(** X2: [BaseController(v)] for a [v] that is not an object ([None], a
    boolean, a number, a string) raises [AttributeError] for [_get_self]:
    the assignment of line 72 has no object to assign to.  No object that
    existed is changed, nothing outside the store changes, and no foreign
    operation is performed. *)
Theorem construction_over_non_object `{Foreign} (w : world) (v : value) :
  (∀ l, v ≠ VRef l) →
  ∃ w1 es,
    BaseController.new v w = (Raises (AttributeError "_get_self"), w1) ∧
    (∀ l o, heap w !! l = Some o → heap w1 !! l = Some o) ∧
    ext w1 = ext w ∧
    log w1 = (log w ++ es)%list ∧
    List.filter is_foreign es = [].
Proof.
  intros Hv.
  destruct (new_non_object w v Hv) as (Hc & Hf & Hnew).
  eexists _, _. split; [exact Hnew|].
  split.
  { intros l o Hl. simpl.
    rewrite lookup_insert_ne by (intros E; rewrite <- E, Hf in Hl; done).
    rewrite lookup_insert_ne by (intros E; rewrite <- E, Hc in Hl; done).
    done. }
  split; [reflexivity|]. split; reflexivity.
Qed.

Lemma construction_over_non_object_witness :
  (∀ l, VNone ≠ VRef l) ∧
  ∃ w1 es,
    BaseController.new VNone w_socket
      = (Raises (AttributeError "_get_self"), w1) ∧
    (∀ l o, heap w_socket !! l = Some o → heap w1 !! l = Some o) ∧
    ext w1 = ext w_socket ∧
    log w1 = (log w_socket ++ es)%list ∧
    List.filter is_foreign es = [].
Proof.
  assert (Hv : ∀ l, VNone ≠ VRef l) by (intros l; discriminate).
  split; [exact Hv|].
  exact (@construction_over_non_object reachable w_socket VNone Hv).
Defined.

(** ** Arguments of the named constructors *)

(** X3: [from_port] hands its arguments to [stem.socket.ControlPort]
    unchanged and in the order address, port; an argument left out is
    replaced by its own default, whatever the other is.  When the
    construction yields a socket [s], the result is a new controller whose
    [_socket] is [s], and the construction is the only foreign operation. *)
Theorem from_port_passes_arguments `{Foreign} (w : world)
    (control_addr control_port : option value) (s : loc) (o : object)
    (h : gmap loc object) (x : Ext) :
  foreign (Construct stem_socket_ControlPort
             [default (VStr "127.0.0.1") control_addr;
              default (VInt 9051) control_port]) (heap w) (ext w)
    = (Returns (VRef s), h, x) →
  h !! s = Some o →
  ∃ c w1 es,
    BaseController.from_port control_addr control_port w
      = (Returns (VRef c), w1) ∧
    log w1 = (log w ++ Call (Construct stem_socket_ControlPort
                               [default (VStr "127.0.0.1") control_addr;
                                default (VInt 9051) control_port]) :: es)%list ∧
    List.filter is_foreign es = [] ∧
    h !! c = None ∧
    heap w1 !! c = Some (controller_object (VRef s)) ∧
    BaseController.get_socket c w1 = (Returns (VRef s), w1).
Proof.
  intros Hcall Hs.
  destruct (named_constructor_wraps w _ _ s o h x Hcall Hs)
    as (c & w1 & es & Hrun & Hlog & Hes & Hc & Hobj & Hget).
  exists c, w1, es. by repeat split.
Qed.

Lemma from_port_passes_arguments_witness :
  @foreign reachable
     (Construct stem_socket_ControlPort [VStr "10.0.0.7"; VInt 9051])
     (heap (w_empty reachable [])) (ext (w_empty reachable []))
    = (Returns (VRef 1%positive),
       {[ 1%positive := Object stem_socket_ControlPort ∅ None ]}, []) ∧
  ∃ c w1 es,
    @BaseController.from_port reachable (Some (VStr "10.0.0.7")) None
       (w_empty reachable [])
      = (Returns (VRef c), w1) ∧
    log w1 = (log (w_empty reachable [])
              ++ Call (Construct stem_socket_ControlPort
                         [VStr "10.0.0.7"; VInt 9051]) :: es)%list ∧
    List.filter is_foreign es = [] ∧
    ({[ 1%positive := Object stem_socket_ControlPort ∅ None ]}
       : gmap loc object) !! c = None ∧
    heap w1 !! c = Some (controller_object (VRef 1%positive)) ∧
    BaseController.get_socket c w1 = (Returns (VRef 1%positive), w1).
Proof.
  split; [vm_compute; reflexivity|].
  apply (@from_port_passes_arguments reachable (w_empty reachable [])
           (Some (VStr "10.0.0.7")) None 1%positive
           (Object stem_socket_ControlPort ∅ None)
           {[ 1%positive := Object stem_socket_ControlPort ∅ None ]} []).
  - vm_compute; reflexivity.
  - reflexivity.
Defined.

(** X4: [from_socket_file(path)] hands [path] to
    [stem.socket.ControlSocketFile] unchanged.  When the construction yields
    a socket [s], the result is a new controller whose [_socket] is [s], and
    the construction is the only foreign operation. *)
Theorem from_socket_file_passes_path `{Foreign} (w : world)
    (socket_path : option value) (s : loc) (o : object)
    (h : gmap loc object) (x : Ext) :
  foreign (Construct stem_socket_ControlSocketFile
             [default (VStr "/var/run/tor/control") socket_path])
    (heap w) (ext w) = (Returns (VRef s), h, x) →
  h !! s = Some o →
  ∃ c w1 es,
    BaseController.from_socket_file socket_path w = (Returns (VRef c), w1) ∧
    log w1 = (log w ++ Call (Construct stem_socket_ControlSocketFile
                               [default (VStr "/var/run/tor/control")
                                  socket_path]) :: es)%list ∧
    List.filter is_foreign es = [] ∧
    h !! c = None ∧
    heap w1 !! c = Some (controller_object (VRef s)) ∧
    BaseController.get_socket c w1 = (Returns (VRef s), w1).
Proof.
  intros Hcall Hs.
  destruct (named_constructor_wraps w _ _ s o h x Hcall Hs)
    as (c & w1 & es & Hrun & Hlog & Hes & Hc & Hobj & Hget).
  exists c, w1, es. by repeat split.
Qed.

Lemma from_socket_file_passes_path_witness :
  @foreign reachable
     (Construct stem_socket_ControlSocketFile [VStr "/tmp/tor/control"])
     (heap (w_empty reachable [])) (ext (w_empty reachable []))
    = (Returns (VRef 1%positive),
       {[ 1%positive := Object stem_socket_ControlSocketFile ∅ None ]}, []) ∧
  ∃ c w1 es,
    @BaseController.from_socket_file reachable
       (Some (VStr "/tmp/tor/control")) (w_empty reachable [])
      = (Returns (VRef c), w1) ∧
    log w1 = (log (w_empty reachable [])
              ++ Call (Construct stem_socket_ControlSocketFile
                         [VStr "/tmp/tor/control"]) :: es)%list ∧
    List.filter is_foreign es = [] ∧
    ({[ 1%positive := Object stem_socket_ControlSocketFile ∅ None ]}
       : gmap loc object) !! c = None ∧
    heap w1 !! c = Some (controller_object (VRef 1%positive)) ∧
    BaseController.get_socket c w1 = (Returns (VRef 1%positive), w1).
Proof.
  split; [vm_compute; reflexivity|].
  apply (@from_socket_file_passes_path reachable (w_empty reachable [])
           (Some (VStr "/tmp/tor/control")) 1%positive
           (Object stem_socket_ControlSocketFile ∅ None)
           {[ 1%positive := Object stem_socket_ControlSocketFile ∅ None ]} []).
  - vm_compute; reflexivity.
  - reflexivity.
Defined.

(** ** Several controllers *)

Section several.
Context `{Foreign}.

(** A public method reads nothing of its controller but [_socket]. *)
Lemma invoke_by_socket (w : world) (c1 c2 : loc) (s : value) (op : operation) :
  inst_attr w c1 "_socket" = Some s →
  inst_attr w c2 "_socket" = Some s →
  invoke c1 op w = invoke c2 op w.
Proof.
  intros H1 H2.
  destruct op; simpl;
    unfold BaseController.send, BaseController.recv, BaseController.is_alive,
      BaseController.connect, BaseController.close, BaseController.get_socket,
      BaseController.add_status_listener,
      BaseController.remove_status_listener, mbind, M_bind;
    by rewrite (getattr_dict _ _ _ _ H1), (getattr_dict _ _ _ _ H2).
Qed.

End several.

Section several_constructions.
Context `{Foreign}.

Lemma new_fresh (w : world) (s : loc) (o : object) :
  heap w !! s = Some o →
  ∃ c f,
    c ≠ s ∧ f ≠ s ∧ f ≠ c ∧ heap w !! c = None ∧ heap w !! f = None ∧
    BaseController.new (VRef s) w = (Returns (VRef c), constructed w s o c f).
Proof.
  intros Hs.
  destruct (new_spec w s o Hs) as (Hcs & Hfs & Hfc & Hc & Hf & Hnew).
  eexists _, _.
  split; [exact Hcs|]. split; [exact Hfs|]. split; [exact Hfc|].
  split; [exact Hc|]. split; [exact Hf|]. exact Hnew.
Qed.

Lemma constructed_accessor (w : world) (s : loc) (o : object) (c f : loc) :
  f ≠ s →
  heap (constructed w s o c f) !! f = Some (accessor_object c).
Proof.
  intros Hfs. unfold constructed. simpl.
  rewrite (lookup_insert_ne _ s f) by done. by rewrite lookup_insert_eq.
Qed.

(** [s._get_self()] when [s._get_self] is the closure of controller [c]. *)
Lemma get_self_spec (w : world) (s f c : loc) :
  inst_attr w s "_get_self" = Some (VRef f) →
  heap w !! f = Some (accessor_object c) →
  get_self s w = (Returns (VRef c), w).
Proof.
  intros Hattr Hf. unfold get_self, mbind, M_bind.
  rewrite (getattr_dict _ _ _ _ Hattr).
  unfold call. by rewrite Hf.
Qed.

Lemma live_ne (w : world) (l l' : loc) (o : object) :
  heap w !! l = Some o → heap w !! l' = None → l ≠ l'.
Proof. intros Hl Hl' E. rewrite E, Hl' in Hl. done. Qed.

End several_constructions.

(** X5: two controllers built over the same socket cannot be told apart by
    their public methods: in the world after both constructions, and in any
    later world in which both still hold the socket, each operation called
    on the one has the result and the effects it has when called on the
    other. *)
Theorem controllers_over_one_socket_agree `{Foreign} (w : world) (s : loc)
    (o : object) :
  heap w !! s = Some o →
  ∃ c1 w1 c2 w2,
    BaseController.new (VRef s) w = (Returns (VRef c1), w1) ∧
    BaseController.new (VRef s) w1 = (Returns (VRef c2), w2) ∧
    c1 ≠ c2 ∧
    (∀ op, invoke c1 op w2 = invoke c2 op w2) ∧
    (∀ w' op, inst_attr w' c1 "_socket" = Some (VRef s) →
              inst_attr w' c2 "_socket" = Some (VRef s) →
              invoke c1 op w' = invoke c2 op w').
Proof.
  intros Hs.
  destruct (new_fresh w s o Hs) as (c1 & f1 & Hc1s & Hf1s & Hf1c1 & Hc1 & Hf1 & Hnew1).
  set (w1 := constructed w s o c1 f1) in *.
  assert (Hs1 : heap w1 !! s = Some (with_attr o "_get_self" (VRef f1)))
    by apply constructed_at_socket.
  assert (Hc1w1 : heap w1 !! c1 = Some (controller_object (VRef s)))
    by (by apply constructed_socket).
  destruct (new_fresh w1 s _ Hs1) as (c2 & f2 & Hc2s & Hf2s & Hf2c2 & Hc2 & Hf2 & Hnew2).
  set (w2 := constructed w1 s (with_attr o "_get_self" (VRef f1)) c2 f2) in *.
  assert (Hc12 : c1 ≠ c2) by (by apply (live_ne w1 c1 c2 _ Hc1w1)).
  assert (Hc1f2 : c1 ≠ f2) by (by apply (live_ne w1 c1 f2 _ Hc1w1)).
  assert (Hown1 : inst_attr w2 c1 "_socket" = Some (VRef s)).
  { apply controller_object_socket. unfold w2.
    by rewrite constructed_elsewhere. }
  assert (Hown2 : inst_attr w2 c2 "_socket" = Some (VRef s)).
  { apply controller_object_socket. by apply constructed_socket. }
  exists c1, w1, c2, w2.
  split; [exact Hnew1|]. split; [exact Hnew2|]. split; [exact Hc12|].
  split.
  - intros op. by apply (invoke_by_socket w2 c1 c2 (VRef s)).
  - intros w' op Ha Hb. by apply (invoke_by_socket w' c1 c2 (VRef s)).
Qed.

Lemma controllers_over_one_socket_agree_witness :
  heap w_socket !! 1%positive = Some (Object stem_socket_ControlPort ∅ None) ∧
  ∃ c1 w1 c2 w2,
    BaseController.new (VRef 1%positive) w_socket = (Returns (VRef c1), w1) ∧
    BaseController.new (VRef 1%positive) w1 = (Returns (VRef c2), w2) ∧
    c1 ≠ c2 ∧
    (∀ op, @invoke reachable c1 op w2 = @invoke reachable c2 op w2) ∧
    (∀ w' op, inst_attr w' c1 "_socket" = Some (VRef 1%positive) →
              inst_attr w' c2 "_socket" = Some (VRef 1%positive) →
              @invoke reachable c1 op w' = @invoke reachable c2 op w').
Proof.
  split; [reflexivity|].
  apply (@controllers_over_one_socket_agree reachable w_socket 1%positive
           (Object stem_socket_ControlPort ∅ None)).
  reflexivity.
Defined.

(** X6: controllers built over two different sockets do not meet.  After
    the second construction the first socket's object is what the first
    construction left, [s1._get_self()] is still the first controller, the
    first controller's object is unchanged, and [s2._get_self()] is the
    second controller. *)
Theorem controllers_over_two_sockets_are_independent `{Foreign} (w : world)
    (s1 s2 : loc) (o1 o2 : object) :
  heap w !! s1 = Some o1 →
  heap w !! s2 = Some o2 →
  s1 ≠ s2 →
  ∃ c1 w1 c2 w2,
    BaseController.new (VRef s1) w = (Returns (VRef c1), w1) ∧
    BaseController.new (VRef s2) w1 = (Returns (VRef c2), w2) ∧
    c1 ≠ c2 ∧
    heap w2 !! s1 = heap w1 !! s1 ∧
    heap w2 !! c1 = heap w1 !! c1 ∧
    get_self s1 w2 = (Returns (VRef c1), w2) ∧
    get_self s2 w2 = (Returns (VRef c2), w2) ∧
    BaseController.get_socket c1 w2 = (Returns (VRef s1), w2) ∧
    BaseController.get_socket c2 w2 = (Returns (VRef s2), w2).
Proof.
  intros Hs1 Hs2 Hne.
  destruct (new_fresh w s1 o1 Hs1) as (c1 & f1 & Hc1s & Hf1s & Hf1c1 & Hc1 & Hf1 & Hnew1).
  set (w1 := constructed w s1 o1 c1 f1) in *.
  assert (Hs2c1 : s2 ≠ c1) by (by apply (live_ne w s2 c1 o2)).
  assert (Hs2f1 : s2 ≠ f1) by (by apply (live_ne w s2 f1 o2)).
  assert (Hs2w1 : heap w1 !! s2 = Some o2).
  { unfold w1. by rewrite constructed_elsewhere. }
  assert (Hs1w1 : heap w1 !! s1 = Some (with_attr o1 "_get_self" (VRef f1)))
    by apply constructed_at_socket.
  assert (Hc1w1 : heap w1 !! c1 = Some (controller_object (VRef s1)))
    by (by apply constructed_socket).
  assert (Hf1w1 : heap w1 !! f1 = Some (accessor_object c1))
    by (by apply constructed_accessor).
  destruct (new_fresh w1 s2 o2 Hs2w1) as (c2 & f2 & Hc2s & Hf2s & Hf2c2 & Hc2 & Hf2 & Hnew2).
  set (w2 := constructed w1 s2 o2 c2 f2) in *.
  assert (Hkeep : ∀ l ol, heap w1 !! l = Some ol → l ≠ s2 →
                          heap w2 !! l = heap w1 !! l).
  { intros l ol Hl Hls. unfold w2. rewrite constructed_elsewhere; [done|done| |].
    - by apply (live_ne w1 l c2 ol).
    - by apply (live_ne w1 l f2 ol). }
  exists c1, w1, c2, w2.
  split; [exact Hnew1|]. split; [exact Hnew2|].
  split; [by apply (live_ne w1 c1 c2 _ Hc1w1)|].
  split; [by apply (Hkeep s1 _ Hs1w1)|].
  split; [by apply (Hkeep c1 _ Hc1w1)|].
  split.
  { apply (get_self_spec w2 s1 f1 c1).
    - unfold inst_attr. rewrite (Hkeep s1 _ Hs1w1 Hne), Hs1w1. simpl.
      by rewrite lookup_insert_eq.
    - by rewrite (Hkeep f1 _ Hf1w1). }
  split; [by apply constructed_resolves|].
  split.
  - apply get_socket_spec, controller_object_socket.
    by rewrite (Hkeep c1 _ Hc1w1).
  - apply get_socket_spec, controller_object_socket.
    by apply constructed_socket.
Qed.

Lemma controllers_over_two_sockets_are_independent_witness :
  heap w_two_sockets !! 1%positive
    = Some (Object stem_socket_ControlPort ∅ None) ∧
  heap w_two_sockets !! 2%positive
    = Some (Object stem_socket_ControlSocketFile ∅ None) ∧
  1%positive ≠ 2%positive ∧
  ∃ c1 w1 c2 w2,
    BaseController.new (VRef 1%positive) w_two_sockets
      = (Returns (VRef c1), w1) ∧
    BaseController.new (VRef 2%positive) w1 = (Returns (VRef c2), w2) ∧
    c1 ≠ c2 ∧
    heap w2 !! 1%positive = heap w1 !! 1%positive ∧
    heap w2 !! c1 = heap w1 !! c1 ∧
    get_self 1%positive w2 = (Returns (VRef c1), w2) ∧
    get_self 2%positive w2 = (Returns (VRef c2), w2) ∧
    BaseController.get_socket c1 w2 = (Returns (VRef 1%positive), w2) ∧
    BaseController.get_socket c2 w2 = (Returns (VRef 2%positive), w2).
Proof.
  split; [reflexivity|]. split; [reflexivity|]. split; [discriminate|].
  apply (@controllers_over_two_sockets_are_independent reachable
           w_two_sockets 1%positive 2%positive
           (Object stem_socket_ControlPort ∅ None)
           (Object stem_socket_ControlSocketFile ∅ None)).
  - reflexivity.
  - reflexivity.
  - discriminate.
Defined.

(** X7: a controller may be built over a controller, which is a
    [ControlSocket] by line 16.  The outer one's [get_socket] is the inner
    one, the inner one's is still the socket: [get_socket] does not look
    through.  The inner controller gains the attribute [_get_self], which
    resolves to the outer one, while the socket's [_get_self] still resolves
    to the inner one. *)
Theorem controller_over_controller `{Foreign} (w : world) (s : loc)
    (o : object) :
  heap w !! s = Some o →
  ∃ c1 w1 c2 f2 w2,
    BaseController.new (VRef s) w = (Returns (VRef c1), w1) ∧
    BaseController.new (VRef c1) w1 = (Returns (VRef c2), w2) ∧
    c1 ≠ c2 ∧
    BaseController.get_socket c2 w2 = (Returns (VRef c1), w2) ∧
    BaseController.get_socket c1 w2 = (Returns (VRef s), w2) ∧
    heap w2 !! c1
      = Some (with_attr (controller_object (VRef s)) "_get_self" (VRef f2)) ∧
    get_self c1 w2 = (Returns (VRef c2), w2) ∧
    get_self s w2 = (Returns (VRef c1), w2).
Proof.
  intros Hs.
  destruct (new_fresh w s o Hs) as (c1 & f1 & Hc1s & Hf1s & Hf1c1 & Hc1 & Hf1 & Hnew1).
  set (w1 := constructed w s o c1 f1) in *.
  assert (Hsw1 : heap w1 !! s = Some (with_attr o "_get_self" (VRef f1)))
    by apply constructed_at_socket.
  assert (Hc1w1 : heap w1 !! c1 = Some (controller_object (VRef s)))
    by (by apply constructed_socket).
  assert (Hf1w1 : heap w1 !! f1 = Some (accessor_object c1))
    by (by apply constructed_accessor).
  destruct (new_fresh w1 c1 _ Hc1w1) as (c2 & f2 & Hc2c1 & Hf2c1 & Hf2c2 & Hc2 & Hf2 & Hnew2).
  set (w2 := constructed w1 c1 (controller_object (VRef s)) c2 f2) in *.
  assert (Hkeep : ∀ l ol, heap w1 !! l = Some ol → l ≠ c1 →
                          heap w2 !! l = heap w1 !! l).
  { intros l ol Hl Hlc. unfold w2. rewrite constructed_elsewhere; [done|done| |].
    - by apply (live_ne w1 l c2 ol).
    - by apply (live_ne w1 l f2 ol). }
  assert (Hc1w2 : heap w2 !! c1
            = Some (with_attr (controller_object (VRef s)) "_get_self" (VRef f2)))
    by apply constructed_at_socket.
  exists c1, w1, c2, f2, w2.
  split; [exact Hnew1|]. split; [exact Hnew2|].
  split; [done|].
  split.
  { apply get_socket_spec, controller_object_socket.
    by apply constructed_socket. }
  split.
  { apply get_socket_spec. unfold inst_attr. rewrite Hc1w2. simpl.
    rewrite lookup_insert_ne by done. by rewrite lookup_singleton_eq. }
  split; [exact Hc1w2|].
  split; [by apply constructed_resolves|].
  apply (get_self_spec w2 s f1 c1).
  - unfold inst_attr. rewrite (Hkeep s _ Hsw1) by done. rewrite Hsw1. simpl.
    by rewrite lookup_insert_eq.
  - by rewrite (Hkeep f1 _ Hf1w1).
Qed.

Lemma controller_over_controller_witness :
  heap w_socket !! 1%positive = Some (Object stem_socket_ControlPort ∅ None) ∧
  ∃ c1 w1 c2 f2 w2,
    BaseController.new (VRef 1%positive) w_socket = (Returns (VRef c1), w1) ∧
    BaseController.new (VRef c1) w1 = (Returns (VRef c2), w2) ∧
    c1 ≠ c2 ∧
    BaseController.get_socket c2 w2 = (Returns (VRef c1), w2) ∧
    BaseController.get_socket c1 w2 = (Returns (VRef 1%positive), w2) ∧
    heap w2 !! c1
      = Some (with_attr (controller_object (VRef 1%positive)) "_get_self"
                (VRef f2)) ∧
    get_self c1 w2 = (Returns (VRef c2), w2) ∧
    get_self 1%positive w2 = (Returns (VRef c1), w2).
Proof.
  split; [reflexivity|].
  apply (@controller_over_controller reachable w_socket 1%positive
           (Object stem_socket_ControlPort ∅ None)).
  reflexivity.
Defined.

(** ** The remaining methods *)

Section remaining.
Context `{Foreign}.

(** Forwarding through any attribute the lookup finds, with the result
    dropped. *)
Lemma forward_through (w : world) (self : loc) (attr : string) (t : value)
    (name : string) (args : list value) :
  getattr self attr w = (Returns t, w) →
  (s' ← getattr self attr; call_method s' name args;; mret VNone) w =
  match foreign (CallMethod t name args) (heap w) (ext w) with
  | (r, h, x) => (discard r, after w (CallMethod t name args) h x)
  end.
Proof.
  intros Hget. unfold mbind, M_bind, mret, M_ret. rewrite Hget.
  unfold call_method, perform, after.
  destruct (foreign _ _ _) as [[[v|e] h] x]; reflexivity.
Qed.

End remaining.

(** X8: [_make_socket] goes by the attribute [_control_socket] alone.  On a
    controller that has one, in its dictionary or, failing that, from the
    base class, it is exactly the call [_make_socket()] on the object that
    attribute refers to, whatever [_socket] holds; its value is dropped, its
    exception passed on. *)
Theorem make_socket_follows_control_socket `{Foreign} (w : world)
    (self : loc) (o : object) (t : value) :
  heap w !! self = Some o →
  obj_dict o !! "_control_socket" = Some t ∨
  (obj_dict o !! "_control_socket" = None ∧
   obj_class o = stem_control_BaseController ∧
   class_attr stem_socket_ControlSocket self "_control_socket" = Some t) →
  BaseController._make_socket self w
    = match foreign (CallMethod t "_make_socket" []) (heap w) (ext w) with
      | (r, h, x) => (discard r, after w (CallMethod t "_make_socket" []) h x)
      end.
Proof.
  intros Hself Hattr. apply forward_through.
  unfold getattr. rewrite Hself.
  destruct Hattr as [-> | (-> & -> & Hbase)]; [done|].
  simpl. by rewrite Hbase.
Qed.

Lemma make_socket_follows_control_socket_witness :
  heap w_patched !! 2%positive
    = Some (Object stem_control_BaseController
              (<["_control_socket" := VRef 7%positive]>
                 {[ "_socket" := VRef 1%positive ]}) None) ∧
  @BaseController._make_socket reachable 2%positive w_patched
    = (Returns VNone,
       after w_patched (CallMethod (VRef 7%positive) "_make_socket" [])
         (heap w_patched) []).
Proof.
  split; [vm_compute; reflexivity|].
  rewrite (@make_socket_follows_control_socket reachable w_patched 2%positive
             (Object stem_control_BaseController
                (<["_control_socket" := VRef 7%positive]>
                   {[ "_socket" := VRef 1%positive ]}) None)
             (VRef 7%positive)).
  - vm_compute; reflexivity.
  - vm_compute; reflexivity.
  - left. vm_compute; reflexivity.
Defined.

(** X9: the listener methods.  [add_status_listener(callback)] is
    [add_status_listener(callback, True)]; with [spawn] given, the call on
    the socket has the arguments callback, spawn in that order;
    [remove_status_listener(callback)] is the socket's of the same name on
    [callback].  Each is that one call and nothing else, returns None
    whatever the socket returns, and passes an exception on. *)
Theorem listener_methods_forward `{Foreign} (w : world) (self : loc)
    (s callback : value) :
  inst_attr w self "_socket" = Some s →
  BaseController.add_status_listener self callback None w
    = BaseController.add_status_listener self callback (Some (VBool true)) w ∧
  (∀ spawn,
     BaseController.add_status_listener self callback (Some spawn) w
     = (let op := CallMethod s "add_status_listener" [callback; spawn] in
        match foreign op (heap w) (ext w) with
        | (r, h, x) => (discard r, after w op h x)
        end)) ∧
  BaseController.remove_status_listener self callback w
    = (let op := CallMethod s "remove_status_listener" [callback] in
       match foreign op (heap w) (ext w) with
       | (r, h, x) => (discard r, after w op h x)
       end).
Proof.
  intros Hs. split; [reflexivity|]. split.
  - intros spawn. by apply forward_discard.
  - by apply forward_discard.
Qed.

Lemma listener_methods_forward_witness :
  @inst_attr reachable w_controller 2%positive "_socket"
    = Some (VRef 1%positive) ∧
  @BaseController.add_status_listener reachable 2%positive (VRef 9%positive)
     None w_controller
    = (Returns VNone,
       after w_controller
         (CallMethod (VRef 1%positive) "add_status_listener"
            [VRef 9%positive; VBool true])
         (heap w_controller) []) ∧
  @BaseController.remove_status_listener reachable 2%positive
     (VRef 9%positive) w_controller
    = (Returns VNone,
       after w_controller
         (CallMethod (VRef 1%positive) "remove_status_listener"
            [VRef 9%positive])
         (heap w_controller) []).
Proof.
  assert (Hown : @inst_attr reachable w_controller 2%positive "_socket"
                 = Some (VRef 1%positive)) by (vm_compute; reflexivity).
  destruct (@listener_methods_forward reachable w_controller 2%positive
              (VRef 1%positive) (VRef 9%positive) Hown)
    as (Hdefault & Hadd & Hremove).
  split; [exact Hown|]. split.
  - rewrite Hdefault, (Hadd (VBool true)). vm_compute; reflexivity.
  - rewrite Hremove. vm_compute; reflexivity.
Defined.

(** ** Calls in sequence *)

Section sequences.
Context `{Foreign}.




End sequences.




Example sequence_on_reachable :
  @run_ops reachable 2%positive
     [op_send (VStr "GETINFO version") None; op_get_socket; op_recv; op_close]
     w_controller
  = (Returns [VNone; VRef 1%positive; VStr "250 OK"; VNone],
     @World reachable (heap w_controller)
       [VStr "GETINFO version"; VBool false]
       (log w_controller
        ++ [Call (CallMethod (VRef 1%positive) "send"
                    [VStr "GETINFO version"; VBool false]);
            Call (CallMethod (VRef 1%positive) "recv" []);
            Call (CallMethod (VRef 1%positive) "close" [])])).
Proof. vm_compute; reflexivity. Qed.
